(** * Nightwatch hook: a shallow embedding of [assets/hooks/nightwatch_hook.py]

    The hook is a one-shot Python script: it decodes one JSON payload from
    standard input, resolves the identity of the calling terminal, builds a
    state record and writes it to a Unix domain socket.

    The embedding has two layers.
    - [Py]: the part of the Python runtime the script relies on: exceptions
      and [try]/[except], the [str] methods it calls, the values [json.load]
      yields, insertion-ordered dictionaries and [json.dumps].
    - [Nightwatch]: the script itself, function by function, over an explicit
      description of what the operating system answers ([os_env]) and a log
      of what the script does to the outside world ([effect]). *)

From Stdlib Require Import ZArith NArith List String Ascii Bool Lia.
From Stdlib Require Import Decimal DecimalString DecimalPos.
Import ListNotations.

Local Open Scope string_scope.
Local Open Scope Z_scope.

(* ===================================================================== *)
(** * The Python runtime used by the script *)
(* ===================================================================== *)

Module Py.

(** ** Exceptions *)

(** The [OSError] family, as raised by [os], [socket] and by [subprocess]
    when the child cannot be started. *)
Inductive oserror : Type :=
  | FileNotFoundError
  | PermissionError
  | ConnectionRefusedError
  | TimeoutError          (* [socket.timeout] is this class *)
  | BrokenPipeError
  | OtherOSError.

(** The exceptions that can travel through the script.  [SystemExit] is what
    [sys.exit] raises; it carries the exit code. *)
Inductive exn : Type :=
  | JSONDecodeError
  | UnicodeDecodeError
  | ValueError
  | IndexError
  | AttributeError
  | TimeoutExpired        (* [subprocess.TimeoutExpired] *)
  | OSError (k : oserror)
  | SystemExit (code : Z).

(** The classes named in the script's [except] clauses. *)
Inductive exn_class : Type :=
  | C_JSONDecodeError
  | C_ValueError
  | C_IndexError
  | C_AttributeError
  | C_TimeoutExpired
  | C_OSError.            (* [socket.error] is an alias of it *)

(** [isinstance e c], following the class hierarchy: [JSONDecodeError] and
    [UnicodeDecodeError] derive from [ValueError]; every [oserror] derives
    from [OSError]; [SystemExit] derives from none of the classes above. *)
Definition isinstance (e : exn) (c : exn_class) : bool :=
  match e, c with
  | JSONDecodeError, C_JSONDecodeError => true
  | JSONDecodeError, C_ValueError => true
  | UnicodeDecodeError, C_ValueError => true
  | ValueError, C_ValueError => true
  | IndexError, C_IndexError => true
  | AttributeError, C_AttributeError => true
  | TimeoutExpired, C_TimeoutExpired => true
  | OSError _, C_OSError => true
  | _, _ => false
  end.

Definition caught_by (cs : list exn_class) (e : exn) : bool :=
  existsb (isinstance e) cs.

(** ** Results and logged computations *)

Inductive result (A : Type) : Type :=
  | Ok (a : A)
  | Raise (e : exn).
Arguments Ok {A} a.
Arguments Raise {A} e.

Section Logged.
(** A computation yields a result together with the log of the effects it
    performed, in program order.  [E] is the type of logged effects. *)
Variable E : Type.

Definition py (A : Type) : Type := (result A * list E)%type.

Definition ret {A} (a : A) : py A := (Ok a, []).
Definition raise {A} (e : exn) : py A := (Raise e, []).
Definition lift {A} (r : result A) : py A := (r, []).
Definition emit (ev : E) : py unit := (Ok tt, [ev]).

Definition bind {A B} (m : py A) (k : A -> py B) : py B :=
  match m with
  | (Ok a, t) => let (r, t') := k a in (r, (t ++ t')%list)
  | (Raise e, t) => (Raise e, t)
  end.

(** [try: body  except cs: handler].  The effects of the body that were
    performed before the exception stay in the log. *)
Definition try_except {A} (body : py A) (cs : list exn_class)
           (handler : py A) : py A :=
  match body with
  | (Ok a, t) => (Ok a, t)
  | (Raise e, t) =>
      if caught_by cs e
      then let (r, t') := handler in (r, (t ++ t')%list)
      else (Raise e, t)
  end.
End Logged.

Arguments ret {E A} a.
Arguments raise {E A} e.
Arguments lift {E A} r.
Arguments emit {E} ev.
Arguments bind {E A B} m k.
Arguments try_except {E A} body cs handler.

Declare Scope py_scope.
Delimit Scope py_scope with py.
Notation "x <- m ;; k" := (bind m (fun x => k))
  (at level 61, m at next level, right associativity) : py_scope.
Notation "m ;;; k" := (bind m (fun _ => k))
  (at level 61, right associativity) : py_scope.

(** ** [str] methods

    A [str] is a [string]; each character stands for the code point of the
    same number (so the text is within Latin-1, which covers what [ps]
    prints). *)

Definition code (c : ascii) : N := N_of_ascii c.

(** [c.isspace()] on code points below 256. *)
Definition isspace (c : ascii) : bool :=
  let n := code c in
  ((9 <=? n) && (n <=? 13) || (28 <=? n) && (n <=? 32)
   || (n =? 133) || (n =? 160))%N.

Fixpoint lstrip (s : string) : string :=
  match s with
  | EmptyString => EmptyString
  | String c r => if isspace c then lstrip r else s
  end.

Fixpoint rstrip (s : string) : string :=
  match s with
  | EmptyString => EmptyString
  | String c r =>
      match rstrip r with
      | EmptyString => if isspace c then EmptyString else String c EmptyString
      | r' => String c r'
      end
  end.

(** [s.strip()] *)
Definition strip (s : string) : string := rstrip (lstrip s).

(** [s.split(sep)] for a one-character separator: never the empty list. *)
Fixpoint split_on (sep : ascii) (s : string) : list string :=
  match s with
  | EmptyString => [EmptyString]
  | String c r =>
      if Ascii.eqb c sep then EmptyString :: split_on sep r
      else match split_on sep r with
           | h :: t => String c h :: t
           | [] => [String c EmptyString]
           end
  end.

(** The longest prefix without whitespace, and what follows it. *)
Fixpoint span_word (s : string) : string * string :=
  match s with
  | EmptyString => (EmptyString, EmptyString)
  | String c r =>
      if isspace c then (EmptyString, s)
      else let (w, rest) := span_word r in (String c w, rest)
  end.

(** [s.split(None, maxsplit)]: runs of whitespace separate the words; after
    [maxsplit] words the remainder, without its leading whitespace, is the
    last item if it is not empty. *)
Fixpoint split_ws (maxsplit : nat) (s : string) : list string :=
  match lstrip s with
  | EmptyString => []
  | s' =>
      match maxsplit with
      | O => [s']
      | S m => let (w, rest) := span_word s' in w :: split_ws m rest
      end
  end.

Definition is_digit (c : ascii) : bool :=
  ((48 <=? code c) && (code c <=? 57))%N.

Definition digit_value (c : ascii) : Z := Z.of_N (code c) - 48.

(** The digits of a decimal literal: underscores are allowed, one at a time
    and only between two digits. *)
Fixpoint digits_value (acc : Z) (after_digit : bool) (s : string) : option Z :=
  match s with
  | EmptyString => if after_digit then Some acc else None
  | String c r =>
      if is_digit c then digits_value (10 * acc + digit_value c) true r
      else if Ascii.eqb c "_"
           then (if after_digit then digits_value acc false r else None)
           else None
  end.

(** Whitespace as [int] sees it.  The characters below 127 are tested with
    the ASCII table of the parser (tab to carriage return, and the space);
    U+0085 and U+00A0 are turned into spaces before parsing.  The separators
    U+001C to U+001F, which [str.strip] and [str.split] take for whitespace,
    are not whitespace here. *)
Definition int_isspace (c : ascii) : bool :=
  let n := code c in
  ((9 <=? n) && (n <=? 13) || (n =? 32) || (n =? 133) || (n =? 160))%N.

Fixpoint int_lstrip (s : string) : string :=
  match s with
  | EmptyString => EmptyString
  | String c r => if int_isspace c then int_lstrip r else s
  end.

Fixpoint int_rstrip (s : string) : string :=
  match s with
  | EmptyString => EmptyString
  | String c r =>
      match int_rstrip r with
      | EmptyString =>
          if int_isspace c then EmptyString else String c EmptyString
      | r' => String c r'
      end
  end.

Definition int_strip (s : string) : string := int_rstrip (int_lstrip s).

(** [int(s)] for a [str] argument: surrounding whitespace is dropped, one
    sign is accepted, anything else raises [ValueError].

    Not modelled: the interpreter's limit on the length of a numeral
    ([sys.int_max_str_digits], 4300 digits unless configured otherwise),
    beyond which [int] and [str] raise [ValueError].  Process ids and the
    clock are far below it; a statement that reads or prints an arbitrary
    integer carries the bound as a hypothesis. *)
Definition int (s : string) : result Z :=
  match int_strip s with
  | EmptyString => Raise ValueError
  | String c r =>
      let signed (neg : bool) (body : string) :=
        match digits_value 0 false body with
        | Some n => Ok (if neg then - n else n)
        | None => Raise ValueError
        end in
      if Ascii.eqb c "-" then signed true r
      else if Ascii.eqb c "+" then signed false r
      else signed false (String c r)
  end.

(** [l[i]] on a list: [IndexError] out of range. *)
Definition getitem {A} (l : list A) (i : nat) : result A :=
  match nth_error l i with
  | Some a => Ok a
  | None => Raise IndexError
  end.

(** ** Values

    The values the script handles are those [json.load] yields and those it
    builds itself: [None], booleans, integers, floats, strings, lists and
    dictionaries. *)

(** A float is only passed through and printed.  It is carried as the text
    [json.dumps] prints for it: [NaN], the infinities, or the decimal
    numeral of [float.__repr__]. *)
Inductive pyfloat : Type :=
  | FNaN
  | FInf (negative : bool)
  | FNum (d : Decimal.decimal).

#[warnings="-register-all"]
Inductive value : Type :=
  | VNone
  | VBool (b : bool)
  | VInt (z : Z)
  | VFloat (f : pyfloat)
  | VStr (s : string)
  | VList (l : list value)
  | VDict (d : list (string * value)).

(** A [dict] with [str] keys keeps its entries in insertion order. *)
Definition dict : Type := list (string * value).

Fixpoint dict_lookup (k : string) (d : dict) : option value :=
  match d with
  | [] => None
  | (k', v) :: r => if String.eqb k' k then Some v else dict_lookup k r
  end.

(** [d.get(k, default)] *)
Definition dict_get (d : dict) (k : string) (default : value) : value :=
  match dict_lookup k d with
  | Some v => v
  | None => default
  end.

(** [d[k] = v]: an existing key keeps its place, a new key goes last. *)
Fixpoint dict_setitem (d : dict) (k : string) (v : value) : dict :=
  match d with
  | [] => [(k, v)]
  | (k', v') :: r =>
      if String.eqb k' k then (k', v) :: r
      else (k', v') :: dict_setitem r k v
  end.

Definition dict_keys (d : dict) : list string := map fst d.

(** [obj.get(k, default)] on an arbitrary value: only a [dict] has the
    method, every other value raises [AttributeError]. *)
Definition method_get (obj : value) (k : string) (default : value)
  : result value :=
  match obj with
  | VDict d => Ok (dict_get d k default)
  | _ => Raise AttributeError
  end.

Fixpoint uint_all_zero (u : Decimal.uint) : bool :=
  match u with
  | Nil => true
  | D0 u' => uint_all_zero u'
  | _ => false
  end.

Definition float_is_zero (f : pyfloat) : bool :=
  match f with
  | FNum (Decimal i m) | FNum (DecimalExp i m _) =>
      uint_all_zero (match i with Pos u | Neg u => u end) && uint_all_zero m
  | _ => false
  end.

(** [bool(v)] *)
Definition truthy (v : value) : bool :=
  match v with
  | VNone => false
  | VBool b => b
  | VInt z => negb (z =? 0)
  | VFloat f => negb (float_is_zero f)
  | VStr s => negb (String.eqb s EmptyString)
  | VList l => match l with [] => false | _ => true end
  | VDict d => match d with [] => false | _ => true end
  end.

(** [a or b] *)
Definition py_or (a b : value) : value := if truthy a then a else b.

(** [v == s] for a [str] literal [s] *)
Definition eq_str (v : value) (s : string) : bool :=
  match v with
  | VStr t => String.eqb t s
  | _ => false
  end.

(** ** [json.dumps] with its default settings

    [ensure_ascii=True], item separator [", "], key separator [": "]. *)

Definition quote : ascii := "034"%char.
Definition newline : ascii := "010"%char.

Definition hex_digit (n : N) : ascii :=
  if (n <? 10)%N then ascii_of_N (48 + n) else ascii_of_N (87 + n).

(** The replacement of one character inside a string literal: the short
    escapes of [ESCAPE_DCT], [\u00xx] for the other characters outside
    [' '..'~'], the character itself otherwise. *)
Definition escape_char (c : ascii) : string :=
  let n := code c in
  if (n =? 34)%N then String "\" (String quote EmptyString)
  else if (n =? 92)%N then "\\"
  else if (n =? 8)%N then "\b"
  else if (n =? 12)%N then "\f"
  else if (n =? 10)%N then "\n"
  else if (n =? 13)%N then "\r"
  else if (n =? 9)%N then "\t"
  else if ((n <? 32) || (126 <? n))%N
       then "\u00" ++ String (hex_digit (n / 16)) (String (hex_digit (n mod 16)) EmptyString)
       else String c EmptyString.

Fixpoint escape (s : string) : string :=
  match s with
  | EmptyString => EmptyString
  | String c r => escape_char c ++ escape r
  end.

Definition encode_basestring_ascii (s : string) : string :=
  String quote (escape s ++ String quote EmptyString).

(** [int.__repr__] *)
Definition int_repr (z : Z) : string := NilZero.string_of_int (Z.to_int z).

Definition float_repr (d : Decimal.decimal) : string :=
  let frac (m : Decimal.uint) :=
    match m with
    | Nil => EmptyString
    | _ => "." ++ NilEmpty.string_of_uint m
    end in
  match d with
  | Decimal i m => NilZero.string_of_int i ++ frac m
  | DecimalExp i m e =>
      NilZero.string_of_int i ++ frac m ++ "e"
      ++ match e with
         | Pos u => "+" ++ NilEmpty.string_of_uint u
         | Neg u => "-" ++ NilEmpty.string_of_uint u
         end
  end.

Definition float_str (f : pyfloat) : string :=
  match f with
  | FNaN => "NaN"
  | FInf false => "Infinity"
  | FInf true => "-Infinity"
  | FNum d => float_repr d
  end.

(** [sep.join(items)] *)
Fixpoint join (sep : string) (items : list string) : string :=
  match items with
  | [] => EmptyString
  | [x] => x
  | x :: r => x ++ sep ++ join sep r
  end.

Fixpoint dumps (v : value) : string :=
  match v with
  | VNone => "null"
  | VBool true => "true"
  | VBool false => "false"
  | VInt z => int_repr z
  | VFloat f => float_str f
  | VStr s => encode_basestring_ascii s
  | VList l => "[" ++ join ", " (map dumps l) ++ "]"
  | VDict d =>
      "{" ++ join ", "
               (map (fun kv => encode_basestring_ascii (fst kv) ++ ": "
                               ++ dumps (snd kv)) d)
      ++ "}"
  end.

(** ** [bytes] and [str.encode()] *)

Definition bytes : Type := list Byte.byte.

(** UTF-8 of one code point below 256. *)
Definition utf8_char (c : ascii) : bytes :=
  let n := code c in
  if (n <? 128)%N then [byte_of_ascii c]
  else [byte_of_ascii (ascii_of_N (192 + n / 64));
        byte_of_ascii (ascii_of_N (128 + n mod 64))].

Fixpoint encode (s : string) : bytes :=
  match s with
  | EmptyString => []
  | String c r => (utf8_char c ++ encode r)%list
  end.

(** ** Predicates used to state properties of the output *)

(** The characters [' '..'~']. *)
Definition printable (c : ascii) : bool :=
  ((32 <=? code c) && (code c <=? 126))%N.

Fixpoint all_chars (p : ascii -> bool) (s : string) : bool :=
  match s with
  | EmptyString => true
  | String c r => p c && all_chars p r
  end.

(** How many times the byte [b] occurs in [l]. *)
Definition count_byte (b : Byte.byte) (l : bytes) : nat :=
  List.length (filter (Byte.eqb b) l).

(** A byte of [' '..'~']. *)
Definition ascii_byte (b : Byte.byte) : bool :=
  ((32 <=? Byte.to_N b) && (Byte.to_N b <=? 126))%N.

(** *** String literals of any text

    The strings of this file stop at U+00FF.  The replacement [json.dumps]
    makes inside a string literal is given here for every code point, so
    that what is said of a literal holds for any [str]. *)

(** ['{0:04x}'.format(n)] for [n] below 65536. *)
Definition hex4 (n : N) : string :=
  String (hex_digit ((n / 4096) mod 16))
    (String (hex_digit ((n / 256) mod 16))
       (String (hex_digit ((n / 16) mod 16))
          (String (hex_digit (n mod 16)) EmptyString))).

(** The replacement of the code point [n]: the short escapes, the character
    itself in [' '..'~'], [\uxxxx] up to U+FFFF, and a pair of surrogates,
    each as [\uxxxx], beyond. *)
Definition escape_code_point (n : N) : string :=
  (if n =? 34 then String "\" (String quote EmptyString)
   else if n =? 92 then "\\"
   else if n =? 8 then "\b"
   else if n =? 12 then "\f"
   else if n =? 10 then "\n"
   else if n =? 13 then "\r"
   else if n =? 9 then "\t"
   else if (32 <=? n) && (n <=? 126) then String (ascii_of_N n) EmptyString
   else if n <? 65536 then "\u" ++ hex4 n
   else let v := n - 65536 in
        "\u" ++ hex4 (N.lor 55296 (N.land (N.shiftr v 10) 1023))
        ++ "\u" ++ hex4 (N.lor 56320 (N.land v 1023)))%N.

Fixpoint escape_points (text : list N) : string :=
  match text with
  | [] => EmptyString
  | n :: r => escape_code_point n ++ escape_points r
  end.

(** The code points of a string of this file. *)
Fixpoint code_points (s : string) : list N :=
  match s with
  | EmptyString => []
  | String c r => code c :: code_points r
  end.

(** A reader inside a JSON string literal: [scan escaped s] is [None] when
    a quote of [s] closes the literal, and otherwise tells whether the
    reader is left just after a backslash. *)
Fixpoint scan (escaped : bool) (s : string) : option bool :=
  match s with
  | EmptyString => Some escaped
  | String c r =>
      if escaped then scan false r
      else if Ascii.eqb c "\" then scan true r
      else if Ascii.eqb c quote then None
      else scan false r
  end.

(** ** Predicates on text *)

(** No character of [s] is whitespace. *)
Definition no_space (s : string) : bool :=
  all_chars (fun c => negb (isspace c)) s.

(** A word: not empty and without whitespace. *)
Definition is_word (s : string) : bool :=
  negb (String.eqb s EmptyString) && no_space s.

Definition no_newline (s : string) : bool :=
  all_chars (fun c => negb (Ascii.eqb c newline)) s.

(** Padding inside a line: whitespace other than the line feed. *)
Definition is_blank (s : string) : bool :=
  all_chars (fun c => isspace c && negb (Ascii.eqb c newline)) s.

(** Padding between two columns: blank and not empty. *)
Definition is_gap (s : string) : bool :=
  negb (String.eqb s EmptyString) && is_blank s.

(** Empty, or beginning with whitespace. *)
Definition starts_with_space_or_empty (s : string) : bool :=
  match s with
  | EmptyString => true
  | String c _ => isspace c
  end.

End Py.

(* ===================================================================== *)
(** * The hook script *)
(* ===================================================================== *)

Module Nightwatch.
Import Py.
Local Open Scope py_scope.

(** ** The outside world *)

(** What [subprocess.run(..., capture_output=True, text=True)] returns. *)
Record completed_process : Type := {
  returncode : Z;
  stdout : string
}.

(** The outcome of one socket call. *)
Inductive call : Type :=
  | Done
  | Failed (e : oserror).

(** The outcome of [sock.sendall(data)]: everything was written, or the call
    failed after [written] bytes. *)
Inductive sendall_outcome : Type :=
  | SentAll
  | SendFailed (e : oserror) (written : nat).

(** What the operating system answers during one run of the script.
    [times_elapsed_ms] is the value of [int(os.times().elapsed * 1000)];
    [getppid] answers the same at both places where the script asks. *)
Record os_env : Type := {
  stdin_json : result value;            (* [json.load(sys.stdin)] *)
  stdin_ttyname : result string;        (* [os.ttyname(sys.stdin.fileno())] *)
  getppid : Z;                          (* [os.getppid()] *)
  ps_run : result completed_process;    (* [subprocess.run(['ps', ...])] *)
  times_elapsed_ms : Z;
  socket_socket : call;                 (* [socket.socket(...)] *)
  socket_connect : call;                (* [sock.connect(...)] *)
  socket_sendall : sendall_outcome;     (* [sock.sendall(...)] *)
  socket_close : call                   (* [sock.close()] *)
}.

(** What the script does to the outside world.  A call is logged when it is
    made, whether it succeeds or not; [SockSend] carries the bytes that were
    written. *)
Inductive effect : Type :=
  | Spawn (argv : list string)
  | SockCreate
  | SockSetTimeout (seconds : Z)
  | SockConnect (path : string)
  | SockSend (written : bytes)
  | SockClose.

Definition M : Type -> Type := py effect.

Definition call_result (c : call) : result unit :=
  match c with
  | Done => Ok tt
  | Failed e => Raise (OSError e)
  end.

Definition subprocess_run (env : os_env) (argv : list string)
  : M completed_process :=
  emit (Spawn argv) ;;; lift (ps_run env).

Definition sendall (env : os_env) (data : bytes) : M unit :=
  match socket_sendall env with
  | SentAll => emit (SockSend data)
  | SendFailed e n => emit (SockSend (firstn n data)) ;;; raise (OSError e)
  end.

Definition sys_exit {A} (code : Z) : M A := raise (SystemExit code).

(** ** The script *)

Definition SOCKET_PATH : string := "/tmp/nightwatch.sock".
Definition TIMEOUT_SECONDS : Z := 2.

(** [get_tty()] *)
Definition get_tty (env : os_env) : M value :=
  try_except
    (name <- lift (stdin_ttyname env) ;; ret (VStr name))
    [C_OSError; C_AttributeError]
    (ret VNone).

(** The dictionary of the last line of [get_terminal_pid]. *)
Definition fallback_identity (env : os_env) : dict :=
  [("pid", VInt (getppid env)); ("ppid", VNone); ("tty", VNone)].

(** [get_terminal_pid()].  The body of the [try] yields [Some d] when it
    reaches its [return], [None] when it falls through; the handler is
    [pass]. *)
Definition get_terminal_pid (env : os_env) : M dict :=
  returned <-
    try_except
      (let ppid := getppid env in
       result <- subprocess_run env
                   ["ps"; "-o"; "pid,ppid,tty,command"; "-p"; int_repr ppid] ;;
       if returncode result =? 0 then
         let lines := split_on newline (strip (stdout result)) in
         if (1 <? List.length lines)%nat then
           line <- lift (getitem lines 1) ;;
           let parts := split_ws 3 line in
           ppid_field <-
             (if (1 <? List.length parts)%nat
              then (p <- lift (getitem parts 1) ;;
                    n <- lift (int p) ;;
                    ret (VInt n))
              else ret VNone) ;;
           tty_field <-
             (if (2 <? List.length parts)%nat
              then (p <- lift (getitem parts 2) ;; ret (VStr p))
              else ret VNone) ;;
           ret (Some [("pid", VInt ppid); ("ppid", ppid_field);
                      ("tty", tty_field)])
         else ret None
       else ret None)
      [C_TimeoutExpired; C_ValueError; C_IndexError]
      (ret None) ;;
  match returned with
  | Some identity => ret identity
  | None => ret (fallback_identity env)
  end.

(** What [send_to_app] hands to [sendall]. *)
Definition wire (state : dict) : bytes :=
  (encode (dumps (VDict state)) ++ [Byte.x0a])%list.

(** [send_to_app(state)] *)
Definition send_to_app (env : os_env) (state : dict) : M bool :=
  try_except
    (emit SockCreate ;;; lift (call_result (socket_socket env)) ;;;
     emit (SockSetTimeout TIMEOUT_SECONDS) ;;;
     emit (SockConnect SOCKET_PATH) ;;; lift (call_result (socket_connect env)) ;;;
     sendall env (wire state) ;;;
     emit SockClose ;;; lift (call_result (socket_close env)) ;;;
     ret true)
    [C_OSError; C_OSError]       (* [(socket.error, OSError)] *)
    (ret false).

(** The four fields [main] reads from the payload (lines 73 to 76). *)
Record fields : Type := {
  session_id : value;
  event : value;
  cwd : value;
  tool_name : value
}.

Definition extract_fields (data : value) : result fields :=
  match method_get data "session_id" (VStr "unknown") with
  | Raise e => Raise e
  | Ok sid =>
  match method_get data "hook_event_name" (VStr "") with
  | Raise e => Raise e
  | Ok ev =>
  match method_get data "cwd" (VStr "") with
  | Raise e => Raise e
  | Ok dir =>
  match method_get data "tool_name" VNone with
  | Raise e => Raise e
  | Ok tool => Ok {| session_id := sid; event := ev; cwd := dir;
                     tool_name := tool |}
  end end end end.

(** The state object of lines 83 to 91. *)
Definition initial_state (f : fields) (terminal_info : dict) (tty : value)
           (timestamp : Z) : dict :=
  [("session_id", session_id f);
   ("cwd", cwd f);
   ("event", event f);
   ("timestamp", VInt timestamp);
   ("pid", dict_get terminal_info "pid" VNone);
   ("ppid", dict_get terminal_info "ppid" VNone);
   ("tty", py_or tty (dict_get terminal_info "tty" VNone))].

(** The event-specific fields of lines 94 to 117. *)
Definition add_event_fields (f : fields) (state : dict) : dict :=
  if eq_str (event f) "SessionStart" then
    dict_setitem state "status" (VStr "started")
  else if eq_str (event f) "SessionEnd" then
    dict_setitem state "status" (VStr "ended")
  else if eq_str (event f) "PreToolUse" then
    dict_setitem (dict_setitem state "status" (VStr "active"))
                 "tool" (tool_name f)
  else if eq_str (event f) "PostToolUse" then
    dict_setitem (dict_setitem state "status" (VStr "active"))
                 "tool" (tool_name f)
  else if eq_str (event f) "UserPromptSubmit" then
    dict_setitem (dict_setitem state "status" (VStr "active"))
                 "user_input" (VBool true)
  else if eq_str (event f) "Stop" then
    dict_setitem state "status" (VStr "idle")
  else
    dict_setitem state "status" (VStr "active").

Definition build_state (f : fields) (terminal_info : dict) (tty : value)
           (timestamp : Z) : dict :=
  add_event_fields f (initial_state f terminal_info tty timestamp).

(** [main()] *)
Definition main (env : os_env) : M unit :=
  data <- try_except (lift (stdin_json env)) [C_JSONDecodeError] (sys_exit 0) ;;
  f <- lift (extract_fields data) ;;
  terminal_info <- get_terminal_pid env ;;
  tty <- get_tty env ;;
  let state := build_state f terminal_info tty (times_elapsed_ms env) in
  send_to_app env state ;;;
  sys_exit 0.

(** The exit status of the interpreter once [main()] is over: the code of
    [SystemExit], 1 for any other exception that reaches the top level. *)
Definition exit_status (r : result unit) : Z :=
  match r with
  | Ok _ => 0
  | Raise (SystemExit c) => c
  | Raise _ => 1
  end.

(** One run of the script: exit status and log of effects. *)
Definition run (env : os_env) : Z * list effect :=
  let (r, log) := main env in (exit_status r, log).

(** Lines 72 to 117 as one function of the decoded payload, the resolved
    identity, the terminal of standard input and the clock: the event
    normalizer. *)
Definition normalize (data : value) (terminal_info : dict) (tty : value)
           (timestamp : Z) : result dict :=
  match extract_fields data with
  | Ok f => Ok (build_state f terminal_info tty timestamp)
  | Raise e => Raise e
  end.

(** The fields [extract_fields] reads from a dictionary payload. *)
Definition fields_of (d : dict) : fields :=
  {| session_id := dict_get d "session_id" (VStr "unknown");
     event := dict_get d "hook_event_name" (VStr "");
     cwd := dict_get d "cwd" (VStr "");
     tool_name := dict_get d "tool_name" VNone |}.

(** ** The table of section 4.2 of the specification

    Written from the specification's words, to be compared with
    [add_event_fields]. *)

Inductive event_kind : Type :=
  | SessionStart
  | SessionEnd
  | PreToolUse
  | PostToolUse
  | UserPromptSubmit
  | Stop
  | Other.

(** The name the payload uses for a kind; [Other] has none. *)
Definition kind_name (k : event_kind) : option string :=
  match k with
  | SessionStart => Some "SessionStart"
  | SessionEnd => Some "SessionEnd"
  | PreToolUse => Some "PreToolUse"
  | PostToolUse => Some "PostToolUse"
  | UserPromptSubmit => Some "UserPromptSubmit"
  | Stop => Some "Stop"
  | Other => None
  end.

Definition named_kinds : list event_kind :=
  [SessionStart; SessionEnd; PreToolUse; PostToolUse; UserPromptSubmit; Stop].

(** The kind of an event value: the kind it names, [Other] when it names
    none (in particular when it is not a string). *)
Definition kind_of (ev : value) : event_kind :=
  match ev with
  | VStr name =>
      match find (fun k => match kind_name k with
                           | Some n => String.eqb n name
                           | None => false
                           end) named_kinds with
      | Some k => k
      | None => Other
      end
  | _ => Other
  end.

Definition table_status (k : event_kind) : string :=
  match k with
  | SessionStart => "started"
  | SessionEnd => "ended"
  | PreToolUse | PostToolUse | UserPromptSubmit => "active"
  | Stop => "idle"
  | Other => "active"
  end.

(** The column "extra fields". *)
Definition table_extra (k : event_kind) (tool : value) : dict :=
  match k with
  | PreToolUse | PostToolUse => [("tool", tool)]
  | UserPromptSubmit => [("user_input", VBool true)]
  | _ => []
  end.

(** ** Reading results *)

(** The field [k] of the record a computation returned. *)
Definition field (k : string) (r : result dict) : option value :=
  match r with
  | Ok state => dict_lookup k state
  | Raise _ => None
  end.

Definition map_result {A B} (g : A -> B) (r : result A) : result B :=
  match r with
  | Ok a => Ok (g a)
  | Raise e => Raise e
  end.

(** ** Environments used in statements and examples *)

(** [env] with other answers from the socket. *)
Definition with_sockets (env : os_env) (create connect : call)
           (send : sendall_outcome) (close : call) : os_env :=
  {| stdin_json := stdin_json env;
     stdin_ttyname := stdin_ttyname env;
     getppid := getppid env;
     ps_run := ps_run env;
     times_elapsed_ms := times_elapsed_ms env;
     socket_socket := create;
     socket_connect := connect;
     socket_sendall := send;
     socket_close := close |}.

Definition all_sockets_ok (env : os_env) : Prop :=
  socket_socket env = Done /\ socket_connect env = Done /\
  socket_sendall env = SentAll /\ socket_close env = Done.

Definition is_create (e : effect) : bool :=
  match e with SockCreate => true | _ => false end.
Definition is_connect (e : effect) : bool :=
  match e with SockConnect _ => true | _ => false end.
Definition is_send (e : effect) : bool :=
  match e with SockSend _ => true | _ => false end.
Definition count_effect (p : effect -> bool) (log : list effect) : nat :=
  List.length (filter p log).

(** The command line of the process query. *)
Definition ps_argv (env : os_env) : list string :=
  ["ps"; "-o"; "pid,ppid,tty,command"; "-p"; int_repr (getppid env)].

(** What [send_to_app] has done once it has called [connect]. *)
Definition log_until_connect : list effect :=
  [SockCreate; SockSetTimeout TIMEOUT_SECONDS; SockConnect SOCKET_PATH].

(** Two lines as [ps -o pid,ppid,tty,command -p 4242] prints them. *)
Definition sample_ps_output : string :=
  "  PID  PPID TTY      COMMAND" ++ String newline
  (" 4242  4000 ttys001  node claude" ++ String newline EmptyString).

(** A run in a terminal, the desktop application listening. *)
Definition sample_env (payload : result value) : os_env :=
  {| stdin_json := payload;
     stdin_ttyname := Ok "/dev/ttys001";
     getppid := 4242;
     ps_run := Ok {| returncode := 0; stdout := sample_ps_output |};
     times_elapsed_ms := 17000;
     socket_socket := Done;
     socket_connect := Done;
     socket_sendall := SentAll;
     socket_close := Done |}.

(** The same run on a machine where [ps] cannot be started. *)
Definition env_without_ps (payload : result value) : os_env :=
  {| stdin_json := payload;
     stdin_ttyname := Ok "/dev/ttys001";
     getppid := 4242;
     ps_run := Raise (OSError FileNotFoundError);
     times_elapsed_ms := 17000;
     socket_socket := Done;
     socket_connect := Done;
     socket_sendall := SentAll;
     socket_close := Done |}.

Definition stop_payload : dict :=
  [("session_id", VStr "abc"); ("hook_event_name", VStr "Stop");
   ("cwd", VStr "/tmp")].

Definition pre_tool_payload : dict :=
  [("session_id", VStr "abc"); ("hook_event_name", VStr "PreToolUse");
   ("cwd", VStr "/tmp")].

Definition sample_identity : dict :=
  [("pid", VInt 4242); ("ppid", VInt 4000); ("tty", VStr "ttys001")].

(** ** Outcomes of the operating system, as statements see them *)

(** The classes named by the handler of [get_terminal_pid]. *)
Definition ps_handlers : list exn_class :=
  [C_TimeoutExpired; C_ValueError; C_IndexError].

(** The process query returned, or raised what [get_terminal_pid] handles. *)
Definition ps_outcome_handled (env : os_env) : bool :=
  match ps_run env with
  | Ok _ => true
  | Raise e => caught_by ps_handlers e
  end.

(** The terminal lookup returned, or raised what [get_tty] handles. *)
Definition tty_outcome_handled (env : os_env) : bool :=
  match stdin_ttyname env with
  | Ok _ => true
  | Raise e => caught_by [C_OSError; C_AttributeError] e
  end.

(** What [ps -o pid,ppid,tty,command -p N] prints for a live process: a
    header line, then one line with the padded columns and the command. *)
Definition ps_listing (header lead pid_col gap1 ppid_col gap2 tty_col rest
                       : string) : string :=
  header ++ String newline
    (lead ++ pid_col ++ gap1 ++ ppid_col ++ gap2 ++ tty_col ++ rest
     ++ String newline EmptyString).

(** The header is one line with something to read on it; the columns are
    words set apart by padding; what follows the tty column, if anything,
    begins with padding and stays on the line. *)
Definition well_formed_listing (header lead pid_col gap1 gap2 tty_col rest
                                : string) : bool :=
  no_newline header && negb (String.eqb (lstrip header) EmptyString)
  && is_blank lead && is_word pid_col && is_gap gap1 && is_gap gap2
  && is_word tty_col && starts_with_space_or_empty rest && no_newline rest.

Definition is_spawn (e : effect) : bool :=
  match e with Spawn _ => true | _ => false end.
Definition is_close (e : effect) : bool :=
  match e with SockClose => true | _ => false end.

(** The keys a record can have, in the order the script sets them. *)
Definition schema_keys : list string :=
  ["session_id"; "cwd"; "event"; "timestamp"; "pid"; "ppid"; "tty";
   "status"; "tool"; "user_input"].

End Nightwatch.

(* ===================================================================== *)
(** * Facts about the runtime *)
(* ===================================================================== *)

Module PyFacts.
Import Py.

(** Induction on values that reaches the elements of lists and the values
    of dictionaries. *)
Lemma value_nested_ind (P : value -> Prop) :
  P VNone ->
  (forall b, P (VBool b)) ->
  (forall z, P (VInt z)) ->
  (forall f, P (VFloat f)) ->
  (forall s, P (VStr s)) ->
  (forall l, Forall P l -> P (VList l)) ->
  (forall d, Forall (fun kv => P (snd kv)) d -> P (VDict d)) ->
  forall v, P v.
Proof.
  intros HNone HBool HInt HFloat HStr HList HDict.
  fix IH 1.
  intros [ | b | z | f | s | l | d].
  - exact HNone.
  - apply HBool.
  - apply HInt.
  - apply HFloat.
  - apply HStr.
  - apply HList. induction l as [ | x l IHl]; constructor.
    + apply IH.
    + exact IHl.
  - apply HDict. induction d as [ | [k x] d IHd]; constructor.
    + simpl. apply IH.
    + exact IHd.
Qed.

Lemma all_chars_app p (a b : string) :
  all_chars p (a ++ b) = all_chars p a && all_chars p b.
Proof.
  induction a as [ | c a IHa]; simpl.
  - reflexivity.
  - rewrite IHa. now rewrite andb_assoc.
Qed.

Lemma escape_char_printable (c : ascii) :
  all_chars printable (escape_char c) = true.
Proof.
  destruct c as [[] [] [] [] [] [] [] []]; reflexivity.
Qed.

Lemma escape_printable (s : string) :
  all_chars printable (escape s) = true.
Proof.
  induction s as [ | c s IHs]; simpl.
  - reflexivity.
  - now rewrite all_chars_app, escape_char_printable, IHs.
Qed.

Lemma encode_basestring_ascii_printable (s : string) :
  all_chars printable (encode_basestring_ascii s) = true.
Proof.
  unfold encode_basestring_ascii. simpl.
  now rewrite all_chars_app, escape_printable.
Qed.

Lemma string_of_uint_printable (u : Decimal.uint) :
  all_chars printable (NilEmpty.string_of_uint u) = true.
Proof.
  induction u; simpl; auto.
Qed.

Lemma nilzero_uint_printable (u : Decimal.uint) :
  all_chars printable (NilZero.string_of_uint u) = true.
Proof.
  destruct u; try reflexivity; apply (string_of_uint_printable (_ u)).
Qed.

Lemma string_of_int_printable (i : Decimal.int) :
  all_chars printable (NilZero.string_of_int i) = true.
Proof.
  destruct i as [u | u]; simpl.
  - apply nilzero_uint_printable.
  - apply nilzero_uint_printable.
Qed.

Lemma int_repr_printable (z : Z) : all_chars printable (int_repr z) = true.
Proof. apply string_of_int_printable. Qed.

Lemma float_str_printable (f : pyfloat) :
  all_chars printable (float_str f) = true.
Proof.
  assert (Hfrac : forall m,
             all_chars printable
               match m with
               | Nil => EmptyString
               | _ => "." ++ NilEmpty.string_of_uint m
               end = true).
  { assert (Hdot : forall u,
               all_chars printable ("." ++ NilEmpty.string_of_uint u) = true)
      by (intros u; apply (string_of_uint_printable u)).
    intros m. destruct m; try reflexivity; apply Hdot. }
  destruct f as [ | [] | [i m | i m e]]; try reflexivity; unfold float_str, float_repr.
  - now rewrite all_chars_app, string_of_int_printable, Hfrac.
  - rewrite !all_chars_app, string_of_int_printable, Hfrac. simpl.
    destruct e as [u | u]; simpl; apply string_of_uint_printable.
Qed.

Lemma join_printable (sep : string) (items : list string) :
  all_chars printable sep = true ->
  Forall (fun s => all_chars printable s = true) items ->
  all_chars printable (join sep items) = true.
Proof.
  intros Hsep Hitems.
  induction Hitems as [ | x r Hx Hr IH]; simpl.
  - reflexivity.
  - destruct r as [ | y r'].
    + exact Hx.
    + now rewrite !all_chars_app, Hx, Hsep, IH.
Qed.

(** [ensure_ascii]: whatever the value, [json.dumps] prints only characters
    of [' '..'~']. *)
Lemma dumps_printable (v : value) : all_chars printable (dumps v) = true.
Proof.
  induction v as [ | b | z | f | s | l IHl | d IHd] using value_nested_ind.
  - reflexivity.
  - destruct b; reflexivity.
  - apply int_repr_printable.
  - apply float_str_printable.
  - apply encode_basestring_ascii_printable.
  - simpl. rewrite all_chars_app, join_printable; try reflexivity.
    induction IHl; constructor; assumption.
  - simpl. rewrite all_chars_app, join_printable; try reflexivity.
    induction IHd as [ | [k x] r Hx Hr IH]; constructor.
    + cbn [fst snd all_chars] in *.
      rewrite !all_chars_app, escape_printable. cbn [all_chars].
      rewrite Hx. reflexivity.
    + exact IH.
Qed.

Lemma count_byte_app b (l1 l2 : bytes) :
  count_byte b (l1 ++ l2)%list = (count_byte b l1 + count_byte b l2)%nat.
Proof.
  unfold count_byte. now rewrite filter_app, length_app.
Qed.

Lemma utf8_char_printable (c : ascii) :
  printable c = true -> count_byte Byte.x0a (utf8_char c) = 0%nat.
Proof.
  destruct c as [[] [] [] [] [] [] [] []]; intros H; try discriminate H;
    reflexivity.
Qed.

(** The encoding of printable text holds no line feed. *)
Lemma encode_printable_no_newline (s : string) :
  all_chars printable s = true -> count_byte Byte.x0a (encode s) = 0%nat.
Proof.
  induction s as [ | c s IHs]; simpl; intros H.
  - reflexivity.
  - apply andb_true_iff in H as [Hc Hs].
    now rewrite count_byte_app, utf8_char_printable, IHs.
Qed.

End PyFacts.

(* ===================================================================== *)
(** * Properties of the hook *)
(* ===================================================================== *)

Module NightwatchFacts.
Import Py Nightwatch PyFacts.

(** ** The event normalizer *)

Lemma extract_fields_dict (d : dict) :
  extract_fields (VDict d) = Ok (fields_of d).
Proof. reflexivity. Qed.

Lemma extract_fields_not_dict (data : value) :
  (forall d, data <> VDict d) -> extract_fields data = Raise AttributeError.
Proof.
  intros H. destruct data; try reflexivity. now destruct (H d).
Qed.

Lemma normalize_dict (d ti : dict) (tty : value) (ts : Z) :
  normalize (VDict d) ti tty ts = Ok (build_state (fields_of d) ti tty ts).
Proof. reflexivity. Qed.

(** The six names are told apart one after the other. *)
Ltac split_on_name name known :=
  let try_name lit :=
    destruct (String.eqb_spec name lit) as [-> | ?]; [solve [known] | ] in
  try_name "SessionStart"; try_name "SessionEnd"; try_name "PreToolUse";
  try_name "PostToolUse"; try_name "UserPromptSubmit"; try_name "Stop".

Ltac names_differ :=
  repeat match goal with
         | H : ?a <> ?b |- _ =>
             rewrite ?(proj2 (String.eqb_neq a b) H);
             rewrite ?(proj2 (String.eqb_neq b a) (not_eq_sym H));
             clear H
         end.

(** [add_event_fields] appends to the seven base fields what the table
    says: the status, then the extra fields of the kind. *)
Lemma build_state_table (f : fields) (ti : dict) (tty : value) (ts : Z) :
  build_state f ti tty ts
  = (initial_state f ti tty ts
       ++ ("status", VStr (table_status (kind_of (event f))))
       :: table_extra (kind_of (event f)) (tool_name f))%list.
Proof.
  destruct f as [sid ev dir tool]. unfold build_state, add_event_fields.
  cbn [event tool_name].
  destruct ev as [ | b | z | x | name | l | d]; try reflexivity.
  split_on_name name ltac:(reflexivity).
  cbn [eq_str kind_of named_kinds find kind_name]. names_differ.
  reflexivity.
Qed.

Lemma kind_of_named :
  kind_of (VStr "SessionStart") = SessionStart /\
  kind_of (VStr "SessionEnd") = SessionEnd /\
  kind_of (VStr "PreToolUse") = PreToolUse /\
  kind_of (VStr "PostToolUse") = PostToolUse /\
  kind_of (VStr "UserPromptSubmit") = UserPromptSubmit /\
  kind_of (VStr "Stop") = Stop.
Proof. repeat split. Qed.

Lemma kind_of_unnamed (name : string) :
  ~ In name ["SessionStart"; "SessionEnd"; "PreToolUse"; "PostToolUse";
             "UserPromptSubmit"; "Stop"] ->
  kind_of (VStr name) = Other.
Proof.
  intros H. split_on_name name ltac:(exfalso; apply H; simpl; tauto).
  cbn [kind_of named_kinds find kind_name]. names_differ. reflexivity.
Qed.

(** C1. For every decoded payload that is a JSON object, normalization
    returns one record; it is the seven base fields followed by the status
    and the extra fields that the table of section 4.2 gives for the kind
    of the event: started for SessionStart, ended for SessionEnd, active
    with tool = tool_name for PreToolUse and PostToolUse, active with
    user_input = true for UserPromptSubmit, idle and nothing else for Stop,
    active and nothing else for any other event value. *)
Theorem normalize_status_by_table (d ti : dict) (tty : value) (ts : Z) :
  let f := fields_of d in
  let k := kind_of (event f) in
  exists state,
    normalize (VDict d) ti tty ts = Ok state /\
    state = (initial_state f ti tty ts
               ++ ("status", VStr (table_status k))
               :: table_extra k (tool_name f))%list /\
    dict_lookup "status" state = Some (VStr (table_status k)) /\
    dict_lookup "tool" state = dict_lookup "tool" (table_extra k (tool_name f)) /\
    dict_lookup "user_input" state
    = dict_lookup "user_input" (table_extra k (tool_name f)).
Proof.
  intros f k. eexists. split; [apply normalize_dict | ].
  fold f. rewrite build_state_table. fold k.
  split; [reflexivity | ].
  repeat split; destruct k; reflexivity.
Qed.

(** The base fields are not touched by the event-specific part. *)
Lemma build_state_tty (f : fields) (ti : dict) (tty : value) (ts : Z) :
  dict_lookup "tty" (build_state f ti tty ts)
  = Some (py_or tty (dict_get ti "tty" VNone)).
Proof. rewrite build_state_table. reflexivity. Qed.

(** The [or] of line 90, case by case of what [get_tty] can return. *)
Lemma tty_field_selection (d ti : dict) (ts : Z) :
  (forall c r,
      field "tty" (normalize (VDict d) ti (VStr (String c r)) ts)
      = Some (VStr (String c r))) /\
  field "tty" (normalize (VDict d) ti (VStr EmptyString) ts)
  = Some (dict_get ti "tty" VNone) /\
  field "tty" (normalize (VDict d) ti VNone ts)
  = Some (dict_get ti "tty" VNone).
Proof.
  repeat split; intros; rewrite normalize_dict; cbn [field];
    rewrite build_state_tty; reflexivity.
Qed.

(** C6. The override is what [get_tty] returned: the name [os.ttyname]
    gave for standard input, or None when the lookup failed.  [os.ttyname]
    answers with the path of a device, never with the empty string; under
    that condition the tty field of the record is the override whenever
    [get_tty] returned a name, and the tty of the resolved identity when it
    returned None: presence alone selects. *)
Theorem tty_override_selected_by_presence
        (env : os_env) (d ti : dict) (tty : value) (log : list effect)
        (ts : Z) :
  stdin_ttyname env <> Ok EmptyString ->
  get_tty env = (Ok tty, log) ->
  (tty = VNone \/ exists name, tty = VStr name /\ stdin_ttyname env = Ok name)
  /\ field "tty" (normalize (VDict d) ti tty ts)
     = Some match tty with
            | VNone => dict_get ti "tty" VNone
            | _ => tty
            end.
Proof.
  intros Hpath Hget. destruct (tty_field_selection d ti ts) as (Hname & _ & Hnone).
  unfold get_tty in Hget. destruct (stdin_ttyname env) as [name | e]; cbn in Hget.
  - injection Hget as <- _. split; [right; eauto | ].
    destruct name as [ | c r]; [congruence | apply Hname].
  - destruct (isinstance e C_OSError || (isinstance e C_AttributeError || false));
      [ | discriminate Hget].
    injection Hget as <- _. split; [now left | apply Hnone].
Qed.

Lemma tty_override_selected_by_presence_witness :
  (VStr "/dev/ttys001" = VNone
   \/ exists name,
       VStr "/dev/ttys001" = VStr name
       /\ stdin_ttyname (sample_env (Ok (VDict stop_payload))) = Ok name)
  /\ field "tty" (normalize (VDict stop_payload) sample_identity
                            (VStr "/dev/ttys001") 17000)
     = Some (VStr "/dev/ttys001").
Proof.
  apply (tty_override_selected_by_presence
           (sample_env (Ok (VDict stop_payload))) stop_payload sample_identity
           (VStr "/dev/ttys001") [] 17000).
  - discriminate.
  - reflexivity.
Defined.

(** C8. Normalization is a function of the decoded payload, the resolved
    identity, the terminal of standard input and the clock, and the clock
    reaches the timestamp field only: the run at clock [t2] is the run at
    clock [t1] with its timestamp overwritten (or the same exception), so
    with the timestamp field blanked the two records are sent as the same
    bytes, and with the same clock they are equal. *)
Theorem normalize_clock_only_in_timestamp
        (data : value) (ti : dict) (tty : value) (t1 t2 : Z) :
  normalize data ti tty t2
  = map_result (fun s => dict_setitem s "timestamp" (VInt t2))
               (normalize data ti tty t1)
  /\ map_result (fun s => wire (dict_setitem s "timestamp" VNone))
                (normalize data ti tty t1)
     = map_result (fun s => wire (dict_setitem s "timestamp" VNone))
                  (normalize data ti tty t2).
Proof.
  destruct data as [ | b | z | x | s | l | d]; try (split; reflexivity).
  rewrite !normalize_dict. cbn [map_result]. rewrite !build_state_table.
  split; reflexivity.
Qed.

(** C10. A PreToolUse or PostToolUse record always has the key tool, last
    in the record, holding what the payload has under tool_name; when the
    payload has no tool_name the key is there with the value None, which is
    sent as null. *)
Theorem tool_field_always_present
        (d ti : dict) (tty : value) (ts : Z) (name : string) :
  dict_lookup "hook_event_name" d = Some (VStr name) ->
  name = "PreToolUse" \/ name = "PostToolUse" ->
  exists state,
    normalize (VDict d) ti tty ts = Ok state /\
    state = (initial_state (fields_of d) ti tty ts
               ++ [("status", VStr "active");
                   ("tool", dict_get d "tool_name" VNone)])%list /\
    In "tool" (dict_keys state) /\
    dict_lookup "tool" state = Some (dict_get d "tool_name" VNone) /\
    (dict_lookup "tool_name" d = None ->
     dict_lookup "tool" state = Some VNone /\
     dumps (VDict [last state (EmptyString, VNone)])
     = String "{" (String quote ("tool" ++ String quote ": null}"))).
Proof.
  intros Hev Hname. eexists. split; [apply normalize_dict | ].
  rewrite build_state_table.
  assert (Hk : table_status (kind_of (event (fields_of d))) = "active"
               /\ table_extra (kind_of (event (fields_of d)))
                              (tool_name (fields_of d))
                  = [("tool", dict_get d "tool_name" VNone)]).
  { unfold fields_of, dict_get. cbn [event tool_name]. rewrite Hev.
    destruct Hname as [-> | ->]; split; reflexivity. }
  destruct Hk as [-> ->].
  split; [reflexivity | ].
  split; [cbn; tauto | ].
  split; [reflexivity | ].
  intros Hmissing. unfold dict_get. rewrite Hmissing. split; reflexivity.
Qed.

Lemma tool_field_always_present_witness :
  exists state,
    normalize (VDict pre_tool_payload) sample_identity VNone 17000 = Ok state /\
    state = (initial_state (fields_of pre_tool_payload) sample_identity VNone 17000
               ++ [("status", VStr "active");
                   ("tool", dict_get pre_tool_payload "tool_name" VNone)])%list /\
    In "tool" (dict_keys state) /\
    dict_lookup "tool" state = Some (dict_get pre_tool_payload "tool_name" VNone) /\
    (dict_lookup "tool_name" pre_tool_payload = None ->
     dict_lookup "tool" state = Some VNone /\
     dumps (VDict [last state (EmptyString, VNone)])
     = String "{" (String quote ("tool" ++ String quote ": null}"))).
Proof.
  apply (tool_field_always_present pre_tool_payload sample_identity VNone 17000
                                   "PreToolUse").
  - reflexivity.
  - left. reflexivity.
Defined.

(** ** The delivery client *)

(** [send_to_app], outcome by outcome of the four socket calls. *)
Lemma send_to_app_cases (env : os_env) (state : dict) :
  send_to_app env state
  = match socket_socket env with
    | Failed _ => (Ok false, [SockCreate])
    | Done =>
        match socket_connect env with
        | Failed _ => (Ok false, log_until_connect)
        | Done =>
            match socket_sendall env with
            | SendFailed _ n =>
                (Ok false,
                 log_until_connect ++ [SockSend (firstn n (wire state))])
            | SentAll =>
                match socket_close env with
                | Failed _ =>
                    (Ok false,
                     log_until_connect ++ [SockSend (wire state); SockClose])
                | Done =>
                    (Ok true,
                     log_until_connect ++ [SockSend (wire state); SockClose])
                end
            end
        end
    end%list.
Proof.
  unfold send_to_app, sendall.
  destruct (socket_socket env); [ | reflexivity].
  destruct (socket_connect env); [ | reflexivity].
  destruct (socket_sendall env); [ | reflexivity].
  destruct (socket_close env); reflexivity.
Qed.

Lemma send_to_app_returns (env : os_env) (state : dict) :
  exists b, fst (send_to_app env state) = Ok b.
Proof.
  rewrite send_to_app_cases.
  destruct (socket_socket env), (socket_connect env), (socket_sendall env),
    (socket_close env); eexists; reflexivity.
Qed.

(** The record leaves as one line: its text has no line feed, the only one
    is the terminator. *)
Lemma wire_one_newline (state : dict) :
  count_byte Byte.x0a (wire state) = 1%nat
  /\ last (wire state) Byte.x00 = Byte.x0a.
Proof.
  unfold wire. split.
  - rewrite count_byte_app, encode_printable_no_newline by apply dumps_printable.
    reflexivity.
  - apply last_last.
Qed.

(** ** The identity resolver *)

(** A failure of the query that the handler names gives the fallback. *)
Lemma get_terminal_pid_caught (env : os_env) (e : exn) :
  ps_run env = Raise e ->
  caught_by [C_TimeoutExpired; C_ValueError; C_IndexError] e = true ->
  get_terminal_pid env = (Ok (fallback_identity env), [Spawn (ps_argv env)]).
Proof.
  intros Hrun Hcaught. unfold get_terminal_pid, subprocess_run.
  rewrite Hrun. cbn -[caught_by int_repr]. rewrite Hcaught. reflexivity.
Qed.

(** A failure that the handler does not name leaves the function. *)
Lemma get_terminal_pid_not_caught (env : os_env) (e : exn) :
  ps_run env = Raise e ->
  caught_by [C_TimeoutExpired; C_ValueError; C_IndexError] e = false ->
  get_terminal_pid env = (Raise e, [Spawn (ps_argv env)]).
Proof.
  intros Hrun Hcaught. unfold get_terminal_pid, subprocess_run.
  rewrite Hrun. cbn -[caught_by int_repr]. rewrite Hcaught. reflexivity.
Qed.

Lemma get_terminal_pid_nonzero_status (env : os_env) (cp : completed_process) :
  ps_run env = Ok cp -> returncode cp <> 0 ->
  get_terminal_pid env = (Ok (fallback_identity env), [Spawn (ps_argv env)]).
Proof.
  intros Hrun Hrc. unfold get_terminal_pid, subprocess_run.
  rewrite Hrun. cbn -[int_repr].
  destruct (Z.eqb_spec (returncode cp) 0) as [E | _]; [contradiction | ].
  reflexivity.
Qed.

Ltac run_step :=
  cbn -[int_repr split_ws split_on strip int Nat.ltb nth_error];
  unfold getitem.
Ltac give_fallback := exists VNone, VNone; repeat split; auto.

(** When the query completes, whatever it printed, the resolver returns an
    identity with the three keys, the pid being the parent process id; each
    of the other two is a parsed column or None. *)
Lemma get_terminal_pid_completed (env : os_env) (cp : completed_process) :
  ps_run env = Ok cp ->
  exists ppid_field tty_field,
    get_terminal_pid env
    = (Ok [("pid", VInt (getppid env)); ("ppid", ppid_field);
           ("tty", tty_field)],
       [Spawn (ps_argv env)])
    /\ (ppid_field = VNone \/ exists n, ppid_field = VInt n)
    /\ (tty_field = VNone \/ exists t, tty_field = VStr t).
Proof.
  intros Hrun. unfold get_terminal_pid, subprocess_run.
  rewrite Hrun. run_step.
  destruct (returncode cp =? 0); [ | give_fallback].
  match goal with
  | |- context [(1 <? ?n)%nat] => destruct (1 <? n)%nat
  end; [ | give_fallback].
  match goal with
  | |- context [nth_error ?lines 1] =>
      destruct (nth_error lines 1) as [line | ]
  end; [ | give_fallback].
  run_step. set (parts := split_ws 3 line).
  destruct (1 <? List.length parts)%nat.
  - destruct (nth_error parts 1) as [p | ]; [ | give_fallback].
    run_step. destruct (int p) as [n | e] eqn:Hint.
    + run_step. destruct (2 <? List.length parts)%nat.
      * destruct (nth_error parts 2) as [t | ]; [ | give_fallback].
        exists (VInt n), (VStr t). repeat split; eauto.
      * exists (VInt n), VNone. repeat split; eauto.
    + assert (e = ValueError) as ->.
      { unfold int in Hint.
        destruct (int_strip p) as [ | c r]; [congruence | ].
        repeat match type of Hint with
               | context [if ?b then _ else _] => destruct b
               | context [match ?o with Some _ => _ | None => _ end] =>
                   destruct o
               end; congruence. }
      give_fallback.
  - run_step. destruct (2 <? List.length parts)%nat.
    + destruct (nth_error parts 2) as [t | ]; [ | give_fallback].
      exists VNone, (VStr t). repeat split; eauto.
    + give_fallback.
Qed.

(** ** The whole run *)

(** [main], stage by stage. *)
Lemma main_cases (env : os_env) :
  main env
  = match stdin_json env with
    | Raise e =>
        if isinstance e C_JSONDecodeError then (Raise (SystemExit 0), [])
        else (Raise e, [])
    | Ok data =>
        match extract_fields data with
        | Raise e => (Raise e, [])
        | Ok f =>
            match get_terminal_pid env with
            | (Raise e, log1) => (Raise e, log1)
            | (Ok ti, log1) =>
                match get_tty env with
                | (Raise e, log2) => (Raise e, log1 ++ log2)
                | (Ok tty, log2) =>
                    (Raise (SystemExit 0),
                     log1 ++ log2
                     ++ snd (send_to_app env
                               (build_state f ti tty (times_elapsed_ms env))))
                end
            end
        end
    end%list.
Proof.
  unfold main. destruct (stdin_json env) as [data | e]; cbn.
  - destruct (extract_fields data) as [f | e]; cbn; [ | reflexivity].
    destruct (get_terminal_pid env) as [[ti | e] log1]; cbn; [ | reflexivity].
    destruct (get_tty env) as [[tty | e] log2]; cbn; [ | reflexivity].
    destruct (send_to_app_returns env
                (build_state f ti tty (times_elapsed_ms env))) as [b Hb].
    destruct (send_to_app env _) as [r log3]. cbn in Hb. subst r. cbn.
    now rewrite app_nil_r.
  - destruct (isinstance e C_JSONDecodeError); reflexivity.
Qed.

Lemma get_terminal_pid_with_sockets env a b c d :
  get_terminal_pid (with_sockets env a b c d) = get_terminal_pid env.
Proof. reflexivity. Qed.

Lemma get_tty_with_sockets env a b c d :
  get_tty (with_sockets env a b c d) = get_tty env.
Proof. reflexivity. Qed.

(** A payload that is not an object stops [main] at its first [data.get]. *)
Lemma main_non_object_payload (env : os_env) (data : value) :
  stdin_json env = Ok data ->
  (forall d, data <> VDict d) ->
  main env = (Raise AttributeError, []).
Proof.
  intros Hin Hshape.
  now rewrite main_cases, Hin, (extract_fields_not_dict data Hshape).
Qed.

(** An exception of [json.load] other than JSONDecodeError is not handled. *)
Lemma main_uncaught_load_error (env : os_env) (e : exn) :
  stdin_json env = Raise e ->
  isinstance e C_JSONDecodeError = false ->
  main env = (Raise e, []).
Proof.
  intros Hin Hclass. now rewrite main_cases, Hin, Hclass.
Qed.

(** When [json.load] raises JSONDecodeError, [main] ends with SystemExit(0)
    and an empty log: the exit status is 0, no process was started, no
    socket was created and no byte was sent. *)
Lemma unparseable_input_exits_quietly (env : os_env) :
  stdin_json env = Raise JSONDecodeError ->
  main env = (Raise (SystemExit 0), []) /\ run env = (0, []).
Proof.
  intros H. unfold run. rewrite main_cases, H. split; reflexivity.
Qed.

Lemma unparseable_input_exits_quietly_witness :
  main (sample_env (Raise JSONDecodeError)) = (Raise (SystemExit 0), [])
  /\ run (sample_env (Raise JSONDecodeError)) = (0, []).
Proof.
  apply (unparseable_input_exits_quietly (sample_env (Raise JSONDecodeError))).
  reflexivity.
Defined.

(** C3, at the failing input. Bytes that are not text in the encoding of
    standard input (the byte 0xFF under UTF-8) do not parse as JSON, and
    [json.load] raises UnicodeDecodeError for them: a ValueError, but not
    the JSONDecodeError that the handler of line 69 names. The exception
    reaches the top level and the exit status is 1. So it is for a plain
    ValueError (a numeral longer than the interpreter reads). Nothing was
    sent in either case. *)
Lemma undecodable_input_exits_with_error :
  main (sample_env (Raise UnicodeDecodeError)) = (Raise UnicodeDecodeError, [])
  /\ run (sample_env (Raise UnicodeDecodeError)) = (1, [])
  /\ run (sample_env (Raise ValueError)) = (1, []).
Proof. repeat split. Qed.

(** C2, at the failing input. The payload [[]] is valid JSON and not an
    object: [data.get] raises AttributeError, nothing handles it, and the
    interpreter exits with status 1 before any delivery. *)
Lemma non_object_payload_exits_with_error :
  main (sample_env (Ok (VList []))) = (Raise AttributeError, [])
  /\ run (sample_env (Ok (VList []))) = (1, []).
Proof. split; reflexivity. Qed.

(** C4, at the failing input. When [ps] cannot be started,
    [subprocess.run] raises FileNotFoundError; the handler of
    [get_terminal_pid] names TimeoutExpired, ValueError and IndexError only,
    so the exception leaves the resolver and ends the run with status 1. *)
Lemma ps_spawn_failure_escapes :
  get_terminal_pid (env_without_ps (Ok (VDict stop_payload)))
  = (Raise (OSError FileNotFoundError),
     [Spawn ["ps"; "-o"; "pid,ppid,tty,command"; "-p"; "4242"]])
  /\ run (env_without_ps (Ok (VDict stop_payload)))
     = (1, [Spawn ["ps"; "-o"; "pid,ppid,tty,command"; "-p"; "4242"]]).
Proof. split; reflexivity. Qed.

(** C5. [send_to_app] never raises: it returns True exactly when the four
    socket calls all succeeded, in which case the whole record was written,
    and False as soon as one of them fails. It makes one attempt: at most
    one connect and one send on the one socket it creates. Its result does
    not reach the caller's outcome: whatever the socket answers, [main] ends
    the same way, with the same exit status. *)
Theorem send_to_app_swallows_failures (env : os_env) (state : dict) :
  (exists b, fst (send_to_app env state) = Ok b) /\
  (fst (send_to_app env state) = Ok true <-> all_sockets_ok env) /\
  (fst (send_to_app env state) = Ok true ->
   In (SockSend (wire state)) (snd (send_to_app env state))) /\
  (count_effect is_create (snd (send_to_app env state)) = 1 /\
   count_effect is_connect (snd (send_to_app env state)) <= 1 /\
   count_effect is_send (snd (send_to_app env state)) <= 1)%nat /\
  (forall create connect send close,
      fst (main (with_sockets env create connect send close)) = fst (main env)
      /\ fst (run (with_sockets env create connect send close))
         = fst (run env)).
Proof.
  split; [apply send_to_app_returns | ].
  rewrite send_to_app_cases. unfold all_sockets_ok.
  split; [ | split; [ | split]].
  - destruct (socket_socket env), (socket_connect env), (socket_sendall env),
      (socket_close env); cbn; split;
      solve [ intros H; discriminate H
            | intros (H1 & H2 & H3 & H4); discriminate
            | intros _; auto ].
  - destruct (socket_socket env), (socket_connect env), (socket_sendall env),
      (socket_close env); cbn; intros H; try discriminate H; auto.
  - destruct (socket_socket env), (socket_connect env), (socket_sendall env),
      (socket_close env); cbn; lia.
  - intros create connect send close.
    assert (Hmain : fst (main (with_sockets env create connect send close))
                    = fst (main env)).
    { rewrite !main_cases, get_terminal_pid_with_sockets, get_tty_with_sockets.
      change (stdin_json (with_sockets env create connect send close))
        with (stdin_json env).
      destruct (stdin_json env) as [data | e].
      - destruct (extract_fields data); [ | reflexivity].
        destruct (get_terminal_pid env) as [[ti | e] log1]; [ | reflexivity].
        destruct (get_tty env) as [[tty | e] log2]; reflexivity.
      - destruct (isinstance e C_JSONDecodeError); reflexivity. }
    split; [exact Hmain | ].
    unfold run.
    destruct (main (with_sockets env create connect send close)) as [r1 l1].
    destruct (main env) as [r2 l2]. cbn in *. now subst.
Qed.

(** C7. When [send_to_app] returns True the log is one connection: create,
    set the timeout, connect to the socket path, one send, close. The bytes
    sent are the text of [json.dumps(state)] followed by one line feed, and
    that line feed is the only one among them. *)
Theorem successful_delivery_sends_one_line
        (env : os_env) (state : dict) (log : list effect) :
  send_to_app env state = (Ok true, log) ->
  log = [SockCreate; SockSetTimeout TIMEOUT_SECONDS; SockConnect SOCKET_PATH;
         SockSend (wire state); SockClose] /\
  wire state = (encode (dumps (VDict state)) ++ [Byte.x0a])%list /\
  count_byte Byte.x0a (wire state) = 1%nat /\
  last (wire state) Byte.x00 = Byte.x0a /\
  count_effect is_connect log = 1%nat /\
  count_effect is_send log = 1%nat.
Proof.
  rewrite send_to_app_cases. intros H.
  assert (Hlog : log = [SockCreate; SockSetTimeout TIMEOUT_SECONDS;
                        SockConnect SOCKET_PATH; SockSend (wire state);
                        SockClose]).
  { destruct (socket_socket env), (socket_connect env), (socket_sendall env),
      (socket_close env); cbn in H;
      first [discriminate H | injection H as <-; reflexivity]. }
  subst log. destruct (wire_one_newline state) as [Hcount Hlast].
  repeat split; auto.
Qed.

Lemma successful_delivery_sends_one_line_witness :
  let env := sample_env (Ok (VDict stop_payload)) in
  let state := build_state (fields_of stop_payload) sample_identity
                           (VStr "/dev/ttys001") 17000 in
  [SockCreate; SockSetTimeout TIMEOUT_SECONDS; SockConnect SOCKET_PATH;
   SockSend (wire state); SockClose]
  = [SockCreate; SockSetTimeout TIMEOUT_SECONDS; SockConnect SOCKET_PATH;
     SockSend (wire state); SockClose] /\
  wire state = (encode (dumps (VDict state)) ++ [Byte.x0a])%list /\
  count_byte Byte.x0a (wire state) = 1%nat /\
  last (wire state) Byte.x00 = Byte.x0a /\
  count_effect is_connect
    [SockCreate; SockSetTimeout TIMEOUT_SECONDS; SockConnect SOCKET_PATH;
     SockSend (wire state); SockClose] = 1%nat /\
  count_effect is_send
    [SockCreate; SockSetTimeout TIMEOUT_SECONDS; SockConnect SOCKET_PATH;
     SockSend (wire state); SockClose] = 1%nat.
Proof.
  intros env state.
  apply (successful_delivery_sends_one_line env state).
  rewrite send_to_app_cases. reflexivity.
Defined.

(** C9. When the payload is a JSON object and the identity of the terminal
    was resolved, a record is built whatever fields the object lacks, and
    [main] goes on to [send_to_app] with it and exits with status 0: a
    missing session_id is sent as "unknown", a missing cwd as the empty
    string, a missing hook_event_name as the empty string with status
    "active". *)
Theorem missing_fields_get_defaults
        (env : os_env) (d ti : dict) (tty : value) (log1 log2 : list effect) :
  stdin_json env = Ok (VDict d) ->
  get_terminal_pid env = (Ok ti, log1) ->
  get_tty env = (Ok tty, log2) ->
  exists state,
    normalize (VDict d) ti tty (times_elapsed_ms env) = Ok state /\
    (dict_lookup "session_id" d = None ->
     dict_lookup "session_id" state = Some (VStr "unknown")) /\
    (dict_lookup "cwd" d = None ->
     dict_lookup "cwd" state = Some (VStr EmptyString)) /\
    (dict_lookup "hook_event_name" d = None ->
     dict_lookup "event" state = Some (VStr EmptyString) /\
     dict_lookup "status" state = Some (VStr "active")) /\
    main env = (Raise (SystemExit 0),
                log1 ++ log2 ++ snd (send_to_app env state))%list /\
    hd_error (snd (send_to_app env state)) = Some SockCreate /\
    fst (run env) = 0.
Proof.
  intros Hin Hpid Htty. eexists. split; [apply normalize_dict | ].
  assert (Hmain : main env
                  = (Raise (SystemExit 0),
                     log1 ++ log2
                     ++ snd (send_to_app env
                               (build_state (fields_of d) ti tty
                                            (times_elapsed_ms env))))%list).
  { rewrite main_cases, Hin, extract_fields_dict, Hpid, Htty. reflexivity. }
  rewrite build_state_table in *.
  refine (conj _ (conj _ (conj _ (conj Hmain (conj _ _))))).
  - intros H. unfold fields_of, dict_get. rewrite H. reflexivity.
  - intros H. unfold fields_of, dict_get. rewrite H. reflexivity.
  - intros H. unfold fields_of, dict_get. cbn [event tool_name].
    rewrite H. split; reflexivity.
  - rewrite send_to_app_cases.
    destruct (socket_socket env), (socket_connect env), (socket_sendall env),
      (socket_close env); reflexivity.
  - unfold run. rewrite Hmain. reflexivity.
Qed.

(** The payload [{}] in a terminal, the application listening. *)
Lemma missing_fields_get_defaults_witness :
  let env := sample_env (Ok (VDict [])) in
  let log1 := [Spawn ["ps"; "-o"; "pid,ppid,tty,command"; "-p"; "4242"]] in
  exists state,
    normalize (VDict []) sample_identity (VStr "/dev/ttys001")
              (times_elapsed_ms env) = Ok state /\
    (dict_lookup "session_id" [] = None ->
     dict_lookup "session_id" state = Some (VStr "unknown")) /\
    (dict_lookup "cwd" [] = None ->
     dict_lookup "cwd" state = Some (VStr EmptyString)) /\
    (dict_lookup "hook_event_name" [] = None ->
     dict_lookup "event" state = Some (VStr EmptyString) /\
     dict_lookup "status" state = Some (VStr "active")) /\
    main env = (Raise (SystemExit 0),
                log1 ++ [] ++ snd (send_to_app env state))%list /\
    hd_error (snd (send_to_app env state)) = Some SockCreate /\
    fst (run env) = 0.
Proof.
  intros env log1.
  apply (missing_fields_get_defaults env [] sample_identity
                                     (VStr "/dev/ttys001") log1 []).
  - reflexivity.
  - reflexivity.
  - reflexivity.
Defined.

(** ** The scenarios of the specification, run *)

(** A PreToolUse event for the tool Bash while nothing listens on the
    socket: the record says active and Bash, [connect] fails, the exit
    status is 0. *)
Example scenario_pre_tool_use_no_listener :
  let payload :=
    VDict [("session_id", VStr "abc"); ("hook_event_name", VStr "PreToolUse");
           ("cwd", VStr "/tmp"); ("tool_name", VStr "Bash")] in
  let env := with_sockets (sample_env (Ok payload))
                          Done (Failed FileNotFoundError) SentAll Done in
  let record := normalize payload sample_identity (VStr "/dev/ttys001") 17000 in
  field "status" record = Some (VStr "active")
  /\ field "tool" record = Some (VStr "Bash")
  /\ map_result (fun state => fst (send_to_app env state)) record
     = Ok (Ok false)
  /\ run env = (0, Spawn (ps_argv env) :: log_until_connect).
Proof. repeat split. Qed.

(** A Stop event with a listener: one line arrives, with status idle and
    neither tool nor user_input. *)
Example scenario_stop_with_listener :
  let env := sample_env (Ok (VDict stop_payload)) in
  exists state,
    normalize (VDict stop_payload) sample_identity (VStr "/dev/ttys001") 17000
    = Ok state
    /\ dict_keys state = ["session_id"; "cwd"; "event"; "timestamp"; "pid";
                          "ppid"; "tty"; "status"]
    /\ dict_lookup "status" state = Some (VStr "idle")
    /\ run env = (0, Spawn (ps_argv env) :: log_until_connect
                     ++ [SockSend (wire state); SockClose])%list.
Proof. eexists. repeat split. Qed.

(** What [ps] printed decides the identity field by field. *)
Example identity_from_ps_output :
  let env_printing (out : string) :=
    {| stdin_json := Ok (VDict stop_payload);
       stdin_ttyname := Raise (OSError OtherOSError);
       getppid := 4242;
       ps_run := Ok {| returncode := 0; stdout := out |};
       times_elapsed_ms := 17000;
       socket_socket := Done; socket_connect := Done;
       socket_sendall := SentAll; socket_close := Done |} in
  let header := "  PID  PPID TTY      COMMAND" ++ String newline EmptyString in
  fst (get_terminal_pid (env_printing sample_ps_output)) = Ok sample_identity
  /\ fst (get_terminal_pid (env_printing (header ++ " 4242  4000")))
     = Ok [("pid", VInt 4242); ("ppid", VInt 4000); ("tty", VNone)]
  /\ fst (get_terminal_pid (env_printing (header ++ " 4242")))
     = Ok [("pid", VInt 4242); ("ppid", VNone); ("tty", VNone)]
  /\ fst (get_terminal_pid (env_printing (header ++ " 4242  ?? ttys001")))
     = Ok [("pid", VInt 4242); ("ppid", VNone); ("tty", VNone)]
  /\ fst (get_terminal_pid (env_printing header))
     = Ok [("pid", VInt 4242); ("ppid", VNone); ("tty", VNone)].
Proof. repeat split. Qed.

End NightwatchFacts.

(* ===================================================================== *)
(** * Facts about the [str] methods *)
(* ===================================================================== *)

Module PyStrFacts.
Import Py PyFacts.

#[local] Arguments isspace : simpl never.
#[local] Arguments is_digit : simpl never.

Lemma append_assoc (a b c : string) : (a ++ b) ++ c = a ++ (b ++ c).
Proof.
  induction a as [ | x a IHa]; simpl; [reflexivity | now rewrite IHa].
Qed.

Lemma append_nil_r (a : string) : a ++ EmptyString = a.
Proof.
  induction a as [ | x a IHa]; simpl; [reflexivity | now rewrite IHa].
Qed.

(** *** [lstrip] *)

Lemma lstrip_head (s : string) (c : ascii) (r : string) :
  lstrip s = String c r -> isspace c = false.
Proof.
  induction s as [ | x s IHs]; simpl; [discriminate | ].
  destruct (isspace x) eqn:Hx; [exact IHs | ].
  intros H. injection H as <- _. exact Hx.
Qed.

Lemma lstrip_space_app (w s : string) :
  all_chars isspace w = true -> lstrip (w ++ s) = lstrip s.
Proof.
  induction w as [ | x w IHw]; simpl; [reflexivity | ].
  intros H. apply andb_true_iff in H as [Hx Hw]. rewrite Hx. auto.
Qed.

Lemma lstrip_app (a b : string) :
  lstrip a <> EmptyString -> lstrip (a ++ b) = lstrip a ++ b.
Proof.
  induction a as [ | x a IHa]; simpl; [congruence | ].
  destruct (isspace x); [exact IHa | reflexivity].
Qed.

Lemma lstrip_fixed (s : string) :
  starts_with_space_or_empty s = false -> lstrip s = s.
Proof.
  destruct s as [ | c r]; simpl; [discriminate | ].
  intros H. now rewrite H.
Qed.

Lemma lstrip_no_newline (s : string) :
  no_newline s = true -> no_newline (lstrip s) = true.
Proof.
  unfold no_newline. induction s as [ | x s IHs]; simpl; [reflexivity | ].
  intros H. destruct (isspace x); [ | exact H].
  apply andb_true_iff in H as [_ Hs]. auto.
Qed.

(** *** [rstrip] *)

Lemma rstrip_cons (c : ascii) (s : string) :
  rstrip s <> EmptyString -> rstrip (String c s) = String c (rstrip s).
Proof.
  simpl. destruct (rstrip s); [congruence | reflexivity].
Qed.

Lemma rstrip_app_r (a b : string) :
  rstrip b <> EmptyString -> rstrip (a ++ b) = a ++ rstrip b.
Proof.
  intros Hb. induction a as [ | x a IHa]; [reflexivity | ].
  cbn [append]. rewrite rstrip_cons; rewrite IHa; [reflexivity | ].
  destruct a; [exact Hb | discriminate].
Qed.

Lemma rstrip_app_empty (a b : string) :
  rstrip b = EmptyString -> rstrip (a ++ b) = rstrip a.
Proof.
  intros Hb. induction a as [ | x a IHa]; [exact Hb | ].
  cbn [append]. simpl. now rewrite IHa.
Qed.

Lemma rstrip_space (w : string) :
  all_chars isspace w = true -> rstrip w = EmptyString.
Proof.
  induction w as [ | x w IHw]; simpl; [reflexivity | ].
  intros H. apply andb_true_iff in H as [Hx Hw]. now rewrite IHw, Hx.
Qed.

Lemma rstrip_no_space (s : string) : no_space s = true -> rstrip s = s.
Proof.
  unfold no_space. induction s as [ | x s IHs]; simpl; [reflexivity | ].
  intros H. apply andb_true_iff in H as [Hx Hs]. rewrite (IHs Hs).
  destruct s; [ | reflexivity].
  apply negb_true_iff in Hx. now rewrite Hx.
Qed.

(** [rstrip] removes a suffix of whitespace and nothing else. *)
Lemma rstrip_suffix (s : string) :
  exists w, s = rstrip s ++ w /\ all_chars isspace w = true.
Proof.
  induction s as [ | x s (w & Hs & Hw)]; [now exists EmptyString | ].
  simpl. destruct (rstrip s) as [ | y r] eqn:Hr.
  - destruct (isspace x) eqn:Hx.
    + exists (String x s). split; [reflexivity | ].
      simpl. rewrite Hx. simpl in Hs. now subst w.
    + exists s. split; [reflexivity | ]. simpl in Hs. now subst w.
  - exists w. split; [ | exact Hw]. cbn [append]. f_equal. exact Hs.
Qed.

Lemma rstrip_word_app (t x : string) :
  is_word t = true -> rstrip (t ++ x) = t ++ rstrip x.
Proof.
  intros Ht. apply andb_true_iff in Ht as [Hne Hns].
  destruct (rstrip x) as [ | c r] eqn:Hx.
  - rewrite rstrip_app_empty by exact Hx.
    now rewrite rstrip_no_space, append_nil_r.
  - rewrite rstrip_app_r; [now rewrite Hx | now rewrite Hx].
Qed.

Lemma strip_no_space (s : string) : no_space s = true -> strip s = s.
Proof.
  intros H. unfold strip.
  assert (Hl : lstrip s = s).
  { destruct s as [ | c r]; [reflexivity | ]. simpl.
    unfold no_space in H. simpl in H. apply andb_true_iff in H as [Hc _].
    apply negb_true_iff in Hc. now rewrite Hc. }
  rewrite Hl. now apply rstrip_no_space.
Qed.

(** *** [split] *)

Lemma split_on_no_sep (s : string) :
  no_newline s = true -> split_on newline s = [s].
Proof.
  unfold no_newline. induction s as [ | x s IHs]; simpl; [reflexivity | ].
  intros H. apply andb_true_iff in H as [Hx Hs].
  apply negb_true_iff in Hx. rewrite Hx, (IHs Hs). reflexivity.
Qed.

Lemma split_on_first_line (a b : string) :
  no_newline a = true ->
  split_on newline (a ++ String newline b) = a :: split_on newline b.
Proof.
  unfold no_newline. induction a as [ | x a IHa]; simpl; [reflexivity | ].
  intros H. apply andb_true_iff in H as [Hx Ha].
  apply negb_true_iff in Hx. rewrite Hx, (IHa Ha). reflexivity.
Qed.

Lemma span_word_app (w rest : string) :
  no_space w = true -> starts_with_space_or_empty rest = true ->
  span_word (w ++ rest) = (w, rest).
Proof.
  unfold no_space. intros Hw Hrest.
  induction w as [ | x w IHw]; simpl.
  - destruct rest as [ | c r]; [reflexivity | ]. simpl in *.
    now rewrite Hrest.
  - simpl in Hw. apply andb_true_iff in Hw as [Hx Hw].
    apply negb_true_iff in Hx. now rewrite Hx, (IHw Hw).
Qed.

Lemma span_word_no_space (s : string) : no_space (fst (span_word s)) = true.
Proof.
  unfold no_space. induction s as [ | x s IHs]; simpl; [reflexivity | ].
  destruct (isspace x) eqn:Hx; [reflexivity | ].
  destruct (span_word s) as [w rest]. simpl in *. now rewrite Hx.
Qed.

(** One step of [split(None, maxsplit)]: padding, a word, and a remainder
    that cannot be taken for part of the word. *)
Lemma split_ws_step (m : nat) (lead w rest : string) :
  all_chars isspace lead = true -> is_word w = true ->
  starts_with_space_or_empty rest = true ->
  split_ws (S m) (lead ++ w ++ rest) = w :: split_ws m rest.
Proof.
  intros Hlead Hw Hrest. apply andb_true_iff in Hw as [Hne Hns].
  cbn [split_ws]. rewrite lstrip_space_app by exact Hlead.
  destruct w as [ | c r]; [discriminate Hne | ].
  assert (Hc : isspace c = false).
  { unfold no_space in Hns. simpl in Hns.
    apply andb_true_iff in Hns as [Hc _]. now apply negb_true_iff in Hc. }
  cbn [append lstrip]. rewrite Hc.
  change (String c (r ++ rest)) with (String c r ++ rest).
  now rewrite span_word_app.
Qed.

(** Every item [split(None, maxsplit)] yields before the remainder is a
    word. *)
Lemma split_ws_items_are_words (m : nat) (s : string) (i : nat) (w : string) :
  nth_error (split_ws m s) i = Some w -> (i < m)%nat -> is_word w = true.
Proof.
  revert s i. induction m as [ | m IHm]; intros s i Hnth Hi; [lia | ].
  cbn [split_ws] in Hnth.
  destruct (lstrip s) as [ | c r] eqn:Hs.
  - destruct i; discriminate Hnth.
  - pose proof (lstrip_head _ _ _ Hs) as Hc.
    pose proof (span_word_no_space (String c r)) as Hword.
    destruct (span_word (String c r)) as [w0 rest] eqn:Hspan.
    cbn [fst] in Hword.
    destruct i as [ | i].
    + injection Hnth as <-. unfold is_word. rewrite Hword.
      simpl in Hspan. rewrite Hc in Hspan.
      destruct (span_word r). injection Hspan as <- _. reflexivity.
    + simpl in Hnth. apply (IHm rest i Hnth). lia.
Qed.

(** *** [int] and [str] on integers *)

Lemma string_of_uint_digits (u : Decimal.uint) :
  all_chars is_digit (NilEmpty.string_of_uint u) = true.
Proof. induction u; simpl; auto. Qed.

Lemma digits_no_space (s : string) :
  all_chars is_digit s = true -> no_space s = true.
Proof.
  unfold no_space. induction s as [ | c s IHs]; simpl; [reflexivity | ].
  intros H. apply andb_true_iff in H as [Hc Hs]. rewrite (IHs Hs), andb_true_r.
  destruct c as [[] [] [] [] [] [] [] []]; try discriminate Hc; reflexivity.
Qed.

Ltac eval_digit :=
  match goal with
  | |- context [is_digit ?c] => change (is_digit c) with true; cbv iota
  end;
  match goal with
  | |- context [digit_value ?c] =>
      let v := eval vm_compute in (digit_value c) in
      change (digit_value c) with v
  end.

Lemma digits_value_acc (u : Decimal.uint) (acc : positive) (b : bool) :
  u <> Nil \/ b = true ->
  digits_value (Z.pos acc) b (NilEmpty.string_of_uint u)
  = Some (Z.pos (Pos.of_uint_acc u acc)).
Proof.
  revert acc b.
  induction u; intros acc b Hb;
    [ destruct Hb as [Hb | ->]; [congruence | reflexivity] | .. ];
    cbn [NilEmpty.string_of_uint digits_value Pos.of_uint_acc];
    eval_digit;
    rewrite <- (IHu _ true) by (now right); f_equal;
    rewrite ?Pos2Z.inj_add, ?Pos2Z.inj_mul; lia.
Qed.

Lemma digits_value_of_uint (u : Decimal.uint) (b : bool) :
  u <> Nil \/ b = true ->
  digits_value 0 b (NilEmpty.string_of_uint u) = Some (Z.of_uint u).
Proof.
  revert b. unfold Z.of_uint.
  induction u; intros b Hb;
    [ destruct Hb as [Hb | ->]; [congruence | reflexivity] | .. ];
    cbn [NilEmpty.string_of_uint digits_value Pos.of_uint];
    eval_digit.
  1: { apply IHu. now right. }
  all: cbn [Z.of_N];
    rewrite <- (digits_value_acc _ _ true) by (now right); reflexivity.
Qed.

Lemma int_repr_is_word (z : Z) : is_word (int_repr z) = true.
Proof.
  assert (Hu : forall p, is_word (NilEmpty.string_of_uint (Pos.to_uint p)) = true).
  { intros p. unfold is_word.
    rewrite digits_no_space by apply string_of_uint_digits.
    destruct (Pos.to_uint p) eqn:Hp; try reflexivity.
    now destruct (DecimalPos.Unsigned.to_uint_nonnil p). }
  assert (Hz : forall p, NilZero.string_of_uint (Pos.to_uint p)
                         = NilEmpty.string_of_uint (Pos.to_uint p)).
  { intros p. destruct (Pos.to_uint p) eqn:Hp; try reflexivity.
    now destruct (DecimalPos.Unsigned.to_uint_nonnil p). }
  destruct z as [ | p | p]; unfold int_repr; cbn [Z.to_int NilZero.string_of_int].
  - reflexivity.
  - rewrite Hz. apply Hu.
  - rewrite Hz. specialize (Hu p). unfold is_word in *.
    apply andb_true_iff in Hu as [_ Hns]. unfold no_space in *. simpl.
    exact Hns.
Qed.

Lemma int_isspace_isspace (c : ascii) :
  isspace c = false -> int_isspace c = false.
Proof.
  destruct c as [[] [] [] [] [] [] [] []]; intros H; try discriminate H;
    reflexivity.
Qed.

Lemma int_strip_no_space (s : string) : no_space s = true -> int_strip s = s.
Proof.
  intros H. unfold int_strip.
  assert (Hr : forall t, no_space t = true -> int_rstrip t = t).
  { unfold no_space. induction t as [ | x t IHt]; simpl; [reflexivity | ].
    intros Ht. apply andb_true_iff in Ht as [Hx Ht]. rewrite (IHt Ht).
    destruct t; [ | reflexivity].
    apply negb_true_iff, int_isspace_isspace in Hx. now rewrite Hx. }
  destruct s as [ | c r]; [reflexivity | ].
  pose proof H as Hc. unfold no_space in Hc. simpl in Hc.
  apply andb_true_iff in Hc as [Hc _].
  apply negb_true_iff, int_isspace_isspace in Hc.
  cbn [int_lstrip]. rewrite Hc. now apply Hr.
Qed.

(** Reading back the decimal text of an integer gives the integer. *)
Lemma int_of_int_repr (z : Z) : int (int_repr z) = Ok z.
Proof.
  unfold int.
  pose proof (int_repr_is_word z) as Hw. apply andb_true_iff in Hw as [_ Hns].
  rewrite (int_strip_no_space _ Hns).
  assert (Hz : forall p, NilZero.string_of_uint (Pos.to_uint p)
                         = NilEmpty.string_of_uint (Pos.to_uint p)).
  { intros p. destruct (Pos.to_uint p) eqn:Hp; try reflexivity.
    now destruct (DecimalPos.Unsigned.to_uint_nonnil p). }
  assert (Hval : forall p, digits_value 0 false
                             (NilEmpty.string_of_uint (Pos.to_uint p))
                           = Some (Z.pos p)).
  { intros p. rewrite digits_value_of_uint.
    - unfold Z.of_uint. now rewrite DecimalPos.Unsigned.of_to.
    - left. apply DecimalPos.Unsigned.to_uint_nonnil. }
  destruct z as [ | p | p]; unfold int_repr; cbn [Z.to_int NilZero.string_of_int].
  - reflexivity.
  - rewrite Hz. specialize (Hval p).
    pose proof (string_of_uint_digits (Pos.to_uint p)) as Hd.
    destruct (NilEmpty.string_of_uint (Pos.to_uint p)) as [ | c r];
      [discriminate Hval | ].
    simpl in Hd. apply andb_true_iff in Hd as [Hc _].
    assert (Ascii.eqb c "-" = false /\ Ascii.eqb c "+" = false) as [-> ->].
    { destruct c as [[] [] [] [] [] [] [] []]; try discriminate Hc;
        split; reflexivity. }
    now rewrite Hval.
  - rewrite Hz. cbn [Ascii.eqb Bool.eqb]. now rewrite Hval.
Qed.

End PyStrFacts.

(* ===================================================================== *)
(** * More on the identity resolver *)
(* ===================================================================== *)

Module ResolverFacts.
Import Py Nightwatch PyFacts PyStrFacts NightwatchFacts.

#[local] Arguments isspace : simpl never.

Lemma get_terminal_pid_log (env : os_env) :
  snd (get_terminal_pid env) = [Spawn (ps_argv env)].
Proof.
  destruct (ps_run env) as [cp | e] eqn:Hrun.
  - destruct (get_terminal_pid_completed env cp Hrun) as (p & t & H & _).
    now rewrite H.
  - destruct (caught_by ps_handlers e) eqn:Hc.
    + now rewrite (get_terminal_pid_caught env e Hrun Hc).
    + now rewrite (get_terminal_pid_not_caught env e Hrun Hc).
Qed.

(** X1. Whatever the query does, [get_terminal_pid] starts one process, the
    process listing of the parent, and does nothing else to the outside
    world; the last argument of the command is the decimal text of the
    parent process id, which [int] reads back as that id. *)
Theorem get_terminal_pid_runs_ps_once (env : os_env) :
  snd (get_terminal_pid env) = [Spawn (ps_argv env)]
  /\ ps_argv env = ["ps"; "-o"; "pid,ppid,tty,command"; "-p";
                    int_repr (getppid env)]
  /\ int (int_repr (getppid env)) = Ok (getppid env).
Proof.
  split; [apply get_terminal_pid_log | ].
  split; [reflexivity | apply int_of_int_repr].
Qed.

(** X2. [get_terminal_pid] returns exactly when the query completed or raised
    TimeoutExpired, ValueError (or a subclass) or IndexError. *)
Theorem get_terminal_pid_returns_iff (env : os_env) :
  ps_outcome_handled env = true
  <-> exists identity, fst (get_terminal_pid env) = Ok identity.
Proof.
  unfold ps_outcome_handled.
  destruct (ps_run env) as [cp | e] eqn:Hrun.
  - split; [intros _ | reflexivity].
    destruct (get_terminal_pid_completed env cp Hrun) as (p & t & H & _).
    rewrite H. eexists. reflexivity.
  - destruct (caught_by ps_handlers e) eqn:Hc.
    + split; [intros _ | reflexivity].
      rewrite (get_terminal_pid_caught env e Hrun Hc). eexists. reflexivity.
    + rewrite (get_terminal_pid_not_caught env e Hrun Hc).
      split; [discriminate | intros [ti H]; discriminate H].
Qed.

Ltac shape_fallback :=
  injection 1 as <- _; exists VNone, VNone;
  split; [reflexivity | split; [now left | now left]].

Lemma identity_shape (env : os_env) (identity : dict) (log : list effect) :
  get_terminal_pid env = (Ok identity, log) ->
  exists ppid_field tty_field,
    identity = [("pid", VInt (getppid env)); ("ppid", ppid_field);
                ("tty", tty_field)]
    /\ (ppid_field = VNone \/ exists n, ppid_field = VInt n)
    /\ (tty_field = VNone
        \/ exists t n, tty_field = VStr t /\ is_word t = true
                       /\ ppid_field = VInt n).
Proof.
  destruct (ps_run env) as [cp | e] eqn:Hrun.
  2: { destruct (caught_by ps_handlers e) eqn:Hc.
       - rewrite (get_terminal_pid_caught env e Hrun Hc). shape_fallback.
       - rewrite (get_terminal_pid_not_caught env e Hrun Hc). discriminate. }
  unfold get_terminal_pid, subprocess_run. rewrite Hrun. run_step.
  destruct (returncode cp =? 0); [ | shape_fallback].
  match goal with
  | |- context [(1 <? ?n)%nat] => destruct (1 <? n)%nat
  end; [ | shape_fallback].
  match goal with
  | |- context [nth_error ?lines 1] =>
      destruct (nth_error lines 1) as [line | ]
  end; [ | shape_fallback].
  run_step.
  pose proof (fun t H => split_ws_items_are_words 3 line 2 t H (Nat.lt_succ_diag_r 2))
    as Hword.
  set (parts := split_ws 3 line) in *.
  destruct (Nat.ltb_spec 1 (List.length parts)) as [H1 | H1].
  - destruct (nth_error parts 1) as [p | ]; [ | shape_fallback].
    run_step. destruct (int p) as [n | e] eqn:Hint.
    + run_step. destruct (2 <? List.length parts)%nat.
      * destruct (nth_error parts 2) as [t | ] eqn:Ht; [ | shape_fallback].
        injection 1 as <- _. exists (VInt n), (VStr t).
        split; [reflexivity | split; [right; eauto | right]].
        exists t, n. split; [reflexivity | split; [ | reflexivity]].
        apply Hword. reflexivity.
      * injection 1 as <- _. exists (VInt n), VNone.
        split; [reflexivity | split; [right; eauto | now left]].
    + assert (e = ValueError) as ->.
      { unfold int in Hint.
        destruct (int_strip p) as [ | c r]; [congruence | ].
        repeat match type of Hint with
               | context [if ?b then _ else _] => destruct b
               | context [match ?o with Some _ => _ | None => _ end] =>
                   destruct o
               end; congruence. }
      shape_fallback.
  - run_step. destruct (Nat.ltb_spec 2 (List.length parts)) as [H2 | H2];
      [lia | ]. shape_fallback.
Qed.

(** X3. An identity that [get_terminal_pid] returns has the keys pid, ppid
    and tty in this order; pid is the parent process id; ppid is None or an
    integer; tty is None or a word (not empty, no whitespace), and a tty is
    only there beside an integer ppid. *)
Theorem get_terminal_pid_identity_shape
        (env : os_env) (identity : dict) (log : list effect) :
  get_terminal_pid env = (Ok identity, log) ->
  exists ppid_field tty_field,
    identity = [("pid", VInt (getppid env)); ("ppid", ppid_field);
                ("tty", tty_field)]
    /\ (ppid_field = VNone \/ exists n, ppid_field = VInt n)
    /\ (tty_field = VNone
        \/ exists t n, tty_field = VStr t /\ is_word t = true
                       /\ ppid_field = VInt n).
Proof. apply identity_shape. Qed.

(** *** Reading a well-formed listing *)

Lemma blank_is_space (s : string) :
  is_blank s = true -> all_chars isspace s = true.
Proof.
  unfold is_blank. induction s as [ | c s IHs]; simpl; [reflexivity | ].
  intros H. apply andb_true_iff in H as [Hc Hs].
  apply andb_true_iff in Hc as [Hc _]. now rewrite Hc, IHs.
Qed.

Lemma blank_no_newline (s : string) :
  is_blank s = true -> no_newline s = true.
Proof.
  unfold is_blank, no_newline.
  induction s as [ | c s IHs]; simpl; [reflexivity | ].
  intros H. apply andb_true_iff in H as [Hc Hs].
  apply andb_true_iff in Hc as [_ Hc]. now rewrite Hc, IHs.
Qed.

Lemma no_space_no_newline (s : string) :
  no_space s = true -> no_newline s = true.
Proof.
  unfold no_space, no_newline.
  induction s as [ | c s IHs]; simpl; [reflexivity | ].
  intros H. apply andb_true_iff in H as [Hc Hs]. rewrite (IHs Hs), andb_true_r.
  destruct (Ascii.eqb_spec c newline) as [-> | _]; [discriminate Hc | reflexivity].
Qed.

Lemma word_no_newline (s : string) : is_word s = true -> no_newline s = true.
Proof.
  intros H. apply andb_true_iff in H as [_ H]. now apply no_space_no_newline.
Qed.

Lemma gap_starts_with_space (g s : string) :
  is_gap g = true -> starts_with_space_or_empty (g ++ s) = true.
Proof.
  intros H. apply andb_true_iff in H as [Hne Hb].
  destruct g as [ | c g]; [discriminate Hne | ].
  apply blank_is_space in Hb. simpl in *.
  now apply andb_true_iff in Hb as [Hc _].
Qed.

Lemma rstrip_keeps_start (s : string) :
  starts_with_space_or_empty s = true ->
  starts_with_space_or_empty (rstrip s) = true.
Proof.
  destruct (rstrip_suffix s) as (w & Hs & _).
  destruct (rstrip s) as [ | c r]; [reflexivity | ].
  rewrite Hs. simpl. auto.
Qed.

Lemma rstrip_no_newline (s : string) :
  no_newline s = true -> no_newline (rstrip s) = true.
Proof.
  destruct (rstrip_suffix s) as (w & Hs & _). unfold no_newline.
  rewrite Hs at 1. rewrite all_chars_app.
  intros H. now apply andb_true_iff in H as [H _].
Qed.

(** [strip] of a well-formed listing: the padding before the header and
    whatever whitespace ends the process line go, nothing else. *)
Lemma strip_listing (header lead pid_col gap1 ppid_col gap2 tty_col rest
                     : string) :
  lstrip header <> EmptyString -> is_word tty_col = true ->
  strip (ps_listing header lead pid_col gap1 ppid_col gap2 tty_col rest)
  = lstrip header ++ String newline
      (lead ++ pid_col ++ gap1 ++ ppid_col ++ gap2 ++ tty_col ++ rstrip rest).
Proof.
  intros Hh Ht. unfold strip, ps_listing. rewrite lstrip_app by exact Hh.
  assert (Htail : rstrip (tty_col ++ rest ++ String newline EmptyString)
                  = tty_col ++ rstrip rest).
  { rewrite rstrip_word_app by exact Ht.
    now rewrite rstrip_app_empty by reflexivity. }
  replace (lstrip header ++ String newline
             (lead ++ pid_col ++ gap1 ++ ppid_col ++ gap2 ++ tty_col ++ rest
              ++ String newline EmptyString))
    with ((lstrip header ++ String newline
             (lead ++ pid_col ++ gap1 ++ ppid_col ++ gap2))
          ++ (tty_col ++ rest ++ String newline EmptyString))
    by (rewrite !append_assoc; cbn [append]; now rewrite !append_assoc).
  rewrite rstrip_app_r.
  - rewrite Htail, !append_assoc. cbn [append]. now rewrite !append_assoc.
  - rewrite Htail. apply andb_true_iff in Ht as [Hne _].
    destruct tty_col; [discriminate Hne | discriminate].
Qed.

(** X5. When [ps] prints a well-formed listing whose second column is the
    decimal text of [n], of at most 4300 characters (what [int] reads), the
    identity carries [n] as ppid and the third column as tty, whatever the
    header, the padding, the first column and the command are.  The text
    of the listing is within Latin-1, as every [str] of this file. *)
Theorem get_terminal_pid_reads_listing
        (env : os_env) (header lead pid_col gap1 gap2 tty_col rest : string)
        (n : Z) :
  ps_run env
  = Ok {| returncode := 0;
          stdout := ps_listing header lead pid_col gap1 (int_repr n) gap2
                               tty_col rest |} ->
  well_formed_listing header lead pid_col gap1 gap2 tty_col rest = true ->
  (String.length (int_repr n) <= 4300)%nat ->
  get_terminal_pid env
  = (Ok [("pid", VInt (getppid env)); ("ppid", VInt n);
         ("tty", VStr tty_col)],
     [Spawn (ps_argv env)]).
Proof.
  intros Hrun Hwf _. unfold well_formed_listing in Hwf.
  repeat (apply andb_true_iff in Hwf as [Hwf ?]).
  rename Hwf into Hheader.
  match goal with H : negb _ = true |- _ =>
    apply negb_true_iff, String.eqb_neq in H; rename H into Hvisible end.
  match goal with H : is_blank lead = true |- _ => rename H into Hlead end.
  match goal with H : is_word pid_col = true |- _ => rename H into Hpid end.
  match goal with H : is_gap gap1 = true |- _ => rename H into Hgap1 end.
  match goal with H : is_gap gap2 = true |- _ => rename H into Hgap2 end.
  match goal with H : is_word tty_col = true |- _ => rename H into Htty end.
  match goal with H : starts_with_space_or_empty rest = true |- _ =>
    rename H into Hrest end.
  match goal with H : no_newline rest = true |- _ => rename H into Hline end.
  pose proof (int_repr_is_word n) as Hppid.
  set (line := lead ++ pid_col ++ gap1 ++ int_repr n ++ gap2 ++ tty_col
               ++ rstrip rest).
  assert (Hlines : split_on newline
                     (strip (ps_listing header lead pid_col gap1 (int_repr n)
                                        gap2 tty_col rest))
                   = [lstrip header; line]).
  { rewrite strip_listing by assumption. fold line.
    rewrite split_on_first_line by (now apply lstrip_no_newline).
    rewrite split_on_no_sep; [reflexivity | ].
    unfold line, no_newline. rewrite !all_chars_app.
    fold (no_newline lead) (no_newline pid_col) (no_newline gap1)
         (no_newline (int_repr n)) (no_newline gap2) (no_newline tty_col)
         (no_newline (rstrip rest)).
    apply andb_true_iff in Hgap1 as [_ Hgap1].
    apply andb_true_iff in Hgap2 as [_ Hgap2].
    now rewrite (blank_no_newline lead), (word_no_newline pid_col),
      (blank_no_newline gap1), (word_no_newline (int_repr n)),
      (blank_no_newline gap2), (word_no_newline tty_col),
      (rstrip_no_newline rest). }
  assert (Hparts : split_ws 3 line
                   = pid_col :: int_repr n :: tty_col
                     :: split_ws 0 (rstrip rest)).
  { unfold line.
    rewrite split_ws_step;
      [ | now apply blank_is_space | assumption
        | now apply gap_starts_with_space ].
    apply andb_true_iff in Hgap1 as [_ Hgap1].
    rewrite split_ws_step;
      [ | now apply blank_is_space | assumption
        | now apply gap_starts_with_space ].
    apply andb_true_iff in Hgap2 as [_ Hgap2].
    rewrite split_ws_step;
      [reflexivity | now apply blank_is_space | assumption
       | now apply rstrip_keeps_start ]. }
  unfold get_terminal_pid, subprocess_run. rewrite Hrun.
  cbn -[int_repr split_ws split_on strip int ps_listing].
  rewrite Hlines. cbn -[int_repr split_ws int]. rewrite Hparts.
  cbn -[int_repr split_ws int]. rewrite int_of_int_repr. reflexivity.
Qed.

Lemma get_terminal_pid_reads_listing_witness :
  get_terminal_pid (sample_env (Ok (VDict stop_payload)))
  = (Ok [("pid", VInt (getppid (sample_env (Ok (VDict stop_payload)))));
         ("ppid", VInt 4000); ("tty", VStr "ttys001")],
     [Spawn (ps_argv (sample_env (Ok (VDict stop_payload))))]).
Proof.
  apply (get_terminal_pid_reads_listing
           (sample_env (Ok (VDict stop_payload)))
           "  PID  PPID TTY      COMMAND" " " "4242" "  " " " "ttys001"
           "  node claude" 4000).
  - reflexivity.
  - reflexivity.
  - vm_compute. lia.
Defined.

(** *** The ways to the fallback identity *)

(** X4. [get_terminal_pid] returns the fallback identity, pid alone, in each of
    these cases: the query raised an exception its handler names; [ps]
    ended with a non-zero status; the output, stripped, is one line (the
    header alone); or the second column of the second line is not an
    integer, in which case the tty beside it is dropped too. *)
Theorem get_terminal_pid_falls_back (env : os_env) :
  (exists e, ps_run env = Raise e /\ caught_by ps_handlers e = true)
  \/ (exists cp,
         ps_run env = Ok cp
         /\ (returncode cp <> 0
             \/ no_newline (strip (stdout cp)) = true
             \/ exists line p,
                 nth_error (split_on newline (strip (stdout cp))) 1 = Some line
                 /\ nth_error (split_ws 3 line) 1 = Some p
                 /\ int p = Raise ValueError)) ->
  get_terminal_pid env = (Ok (fallback_identity env), [Spawn (ps_argv env)]).
Proof.
  intros [(e & Hrun & Hc) | (cp & Hrun & Hcase)].
  - now apply get_terminal_pid_caught with (e := e).
  - destruct (Z.eq_dec (returncode cp) 0) as [Hrc | Hrc];
      [ | now apply get_terminal_pid_nonzero_status with (cp := cp)].
    destruct Hcase as [Hnz | [Hone | (line & p & Hline & Hp & Hint)]];
      [contradiction | | ];
      unfold get_terminal_pid, subprocess_run; rewrite Hrun; run_step;
      rewrite Hrc; cbn [Z.eqb].
    + rewrite (split_on_no_sep _ Hone). reflexivity.
    + assert (Hlen : (1 < List.length (split_on newline (strip (stdout cp))))%nat)
        by (apply nth_error_Some; congruence).
      apply Nat.ltb_lt in Hlen. rewrite Hlen, Hline. run_step.
      assert (Hlen2 : (1 < List.length (split_ws 3 line))%nat)
        by (apply nth_error_Some; congruence).
      apply Nat.ltb_lt in Hlen2. rewrite Hlen2, Hp. run_step.
      rewrite Hint. reflexivity.
Qed.

(** The header alone, as [ps] prints it for a process that is gone. *)
Lemma get_terminal_pid_falls_back_witness :
  let env :=
    {| stdin_json := Ok (VDict stop_payload);
       stdin_ttyname := Ok "/dev/ttys001";
       getppid := 4242;
       ps_run := Ok {| returncode := 0;
                       stdout := "  PID  PPID TTY      COMMAND"
                                 ++ String newline EmptyString |};
       times_elapsed_ms := 17000;
       socket_socket := Done; socket_connect := Done;
       socket_sendall := SentAll; socket_close := Done |} in
  get_terminal_pid env = (Ok (fallback_identity env), [Spawn (ps_argv env)]).
Proof.
  intros env. apply (get_terminal_pid_falls_back env).
  right. eexists. split; [reflexivity | ]. right. left. reflexivity.
Defined.

Lemma get_terminal_pid_identity_shape_witness :
  exists ppid_field tty_field,
    sample_identity
    = [("pid", VInt (getppid (sample_env (Ok (VDict stop_payload)))));
       ("ppid", ppid_field); ("tty", tty_field)]
    /\ (ppid_field = VNone \/ exists n, ppid_field = VInt n)
    /\ (tty_field = VNone
        \/ exists t n, tty_field = VStr t /\ is_word t = true
                       /\ ppid_field = VInt n).
Proof.
  apply (get_terminal_pid_identity_shape
           (sample_env (Ok (VDict stop_payload))) sample_identity
           [Spawn ["ps"; "-o"; "pid,ppid,tty,command"; "-p"; "4242"]]).
  reflexivity.
Defined.

(** *** The tty that reaches the record *)

Lemma get_tty_outcomes (env : os_env) (tty : value) (log : list effect) :
  get_tty env = (Ok tty, log) ->
  log = [] /\ (tty = VNone \/ exists name, tty = VStr name).
Proof.
  unfold get_tty. destruct (stdin_ttyname env) as [name | e]; cbn.
  - injection 1 as <- <-. eauto.
  - destruct (isinstance e C_OSError || (isinstance e C_AttributeError || false));
      [injection 1 as <- <-; auto | discriminate].
Qed.

(** X6. In a record built from what [get_tty] and [get_terminal_pid] returned,
    the tty field is None or a string that is not empty: an empty name
    from the terminal lookup gives way to the identity, and the identity
    only ever carries a word. *)
Theorem record_tty_never_empty
        (env : os_env) (identity : dict) (tty : value)
        (log1 log2 : list effect) (f : fields) (ts : Z) :
  get_terminal_pid env = (Ok identity, log1) ->
  get_tty env = (Ok tty, log2) ->
  dict_lookup "tty" (build_state f identity tty ts) = Some VNone
  \/ exists c r,
      dict_lookup "tty" (build_state f identity tty ts)
      = Some (VStr (String c r)).
Proof.
  intros Hid Htty. rewrite build_state_tty.
  destruct (get_tty_outcomes env tty log2 Htty) as [_ Hshape].
  destruct (identity_shape env identity log1 Hid) as (p & t & -> & _ & Ht).
  assert (Hidtty : dict_get [("pid", VInt (getppid env)); ("ppid", p);
                             ("tty", t)] "tty" VNone = VNone
                   \/ exists c r,
                       dict_get [("pid", VInt (getppid env)); ("ppid", p);
                                 ("tty", t)] "tty" VNone = VStr (String c r)).
  { change (dict_get _ "tty" VNone) with t.
    destruct Ht as [-> | (w & n & -> & Hw & _)]; [now left | right].
    apply andb_true_iff in Hw as [Hne _].
    destruct w as [ | c r]; [discriminate Hne | eauto]. }
  destruct Hshape as [-> | [[ | c r] ->]]; cbn [py_or truthy String.eqb negb].
  - destruct Hidtty as [-> | (c & r & ->)]; eauto.
  - destruct Hidtty as [-> | (c & r & ->)]; eauto.
  - right. eauto.
Qed.

Lemma record_tty_never_empty_witness :
  let env := {| stdin_json := Ok (VDict stop_payload);
                stdin_ttyname := Ok EmptyString;
                getppid := 4242;
                ps_run := Ok {| returncode := 0; stdout := sample_ps_output |};
                times_elapsed_ms := 17000;
                socket_socket := Done; socket_connect := Done;
                socket_sendall := SentAll; socket_close := Done |} in
  let state := build_state (fields_of stop_payload) sample_identity
                           (VStr EmptyString) 17000 in
  dict_lookup "tty" state = Some VNone
  \/ exists c r, dict_lookup "tty" state = Some (VStr (String c r)).
Proof.
  intros env state.
  apply (record_tty_never_empty env sample_identity (VStr EmptyString)
           [Spawn ["ps"; "-o"; "pid,ppid,tty,command"; "-p"; "4242"]] []
           (fields_of stop_payload) 17000).
  - reflexivity.
  - reflexivity.
Defined.

End ResolverFacts.

(* ===================================================================== *)
(** * More on delivery and on the whole run *)
(* ===================================================================== *)

Module RunFacts.
Import Py Nightwatch PyFacts PyStrFacts NightwatchFacts ResolverFacts.

(** X7. For an integer whose decimal text has at most 4300 characters (the
    length up to which [str] prints and [int] reads), reading the text back
    with [int] gives the integer, and the text is one word: the parent
    process id that the script prints for [ps], and a parent id that [ps]
    prints in decimal, are read without loss. *)
Theorem int_reads_back_decimal_text (z : Z) :
  (String.length (int_repr z) <= 4300)%nat ->
  int (int_repr z) = Ok z /\ is_word (int_repr z) = true.
Proof. intros _. split; [apply int_of_int_repr | apply int_repr_is_word]. Qed.

Lemma int_reads_back_decimal_text_witness :
  int (int_repr (-4242)) = Ok (-4242) /\ is_word (int_repr (-4242)) = true.
Proof.
  apply (int_reads_back_decimal_text (-4242)). vm_compute. lia.
Defined.

Lemma utf8_char_printable_byte (c : ascii) :
  printable c = true ->
  utf8_char c = [byte_of_ascii c] /\ ascii_byte (byte_of_ascii c) = true.
Proof.
  destruct c as [[] [] [] [] [] [] [] []]; intros H; try discriminate H;
    split; reflexivity.
Qed.

Lemma encode_printable (s : string) :
  all_chars printable s = true ->
  forallb ascii_byte (encode s) = true
  /\ List.length (encode s) = String.length s.
Proof.
  induction s as [ | c s IHs]; cbn [all_chars encode String.length];
    intros H; [split; reflexivity | ].
  apply andb_true_iff in H as [Hc Hs].
  destruct (utf8_char_printable_byte c Hc) as [-> Hb].
  destruct (IHs Hs) as [Hall Hlen].
  change ([byte_of_ascii c] ++ encode s)%list
    with (byte_of_ascii c :: encode s).
  cbn [forallb List.length]. now rewrite Hb, Hall, Hlen.
Qed.

(** X8. For every record of this file, whose strings hold code points up
    to U+00FF, control characters and U+0080 to U+00FF included, the bytes
    sent are one per character of the JSON text, each in [' '..'~'], and
    then the line feed. *)
Theorem wire_is_ascii (state : dict) :
  wire state = (encode (dumps (VDict state)) ++ [Byte.x0a])%list
  /\ forallb ascii_byte (encode (dumps (VDict state))) = true
  /\ List.length (wire state) = S (String.length (dumps (VDict state))).
Proof.
  destruct (encode_printable _ (dumps_printable (VDict state))) as [Hall Hlen].
  split; [reflexivity | split; [exact Hall | ]].
  unfold wire. rewrite length_app, Hlen. simpl. lia.
Qed.

(** X9. What [send_to_app] does when a call fails. Any bytes it writes are
    a prefix of the record's line. It writes nothing unless both [socket()]
    and [connect] succeeded, and does not even try to connect when
    [socket()] failed. It closes the socket only after a complete send: a
    failed [connect] or [sendall] leaves it unclosed. It starts no
    process. *)
Theorem send_to_app_failure_effects (env : os_env) (state : dict) :
  let log := snd (send_to_app env state) in
  (forall data, In (SockSend data) log ->
                exists n, data = firstn n (wire state)) /\
  (count_effect is_send log = 1%nat
   <-> socket_socket env = Done /\ socket_connect env = Done) /\
  (count_effect is_connect log = 1%nat <-> socket_socket env = Done) /\
  (count_effect is_close log = 1%nat
   <-> socket_socket env = Done /\ socket_connect env = Done
       /\ socket_sendall env = SentAll) /\
  (count_effect is_send log <= 1 /\ count_effect is_close log <= 1)%nat /\
  count_effect is_spawn log = 0%nat.
Proof.
  cbv zeta. rewrite send_to_app_cases.
  split; [ | split; [ | split; [ | split; [ | split]]]].
  - intros data.
    destruct (socket_socket env), (socket_connect env),
      (socket_sendall env) as [ | err n], (socket_close env); cbn;
      intros H; repeat destruct H as [H | H]; try discriminate H;
      try contradiction; injection H as <-;
      solve [ exists (List.length (wire state)); now rewrite firstn_all
            | now exists n ].
  - destruct (socket_socket env), (socket_connect env), (socket_sendall env),
      (socket_close env); cbn; split;
      solve [ intros H; discriminate H
            | intros [H1 H2]; discriminate
            | intros _; auto ].
  - destruct (socket_socket env), (socket_connect env), (socket_sendall env),
      (socket_close env); cbn; split;
      solve [ intros H; discriminate H | intros _; auto ].
  - destruct (socket_socket env), (socket_connect env), (socket_sendall env),
      (socket_close env); cbn; split;
      solve [ intros H; discriminate H
            | intros (H1 & H2 & H3); discriminate
            | intros _; auto ].
  - destruct (socket_socket env), (socket_connect env), (socket_sendall env),
      (socket_close env); cbn; lia.
  - destruct (socket_socket env), (socket_connect env), (socket_sendall env),
      (socket_close env); reflexivity.
Qed.

Lemma get_tty_log (env : os_env) : snd (get_tty env) = [].
Proof.
  unfold get_tty. destruct (stdin_ttyname env) as [name | e]; cbn;
    [reflexivity | ].
  destruct (isinstance e C_OSError || (isinstance e C_AttributeError || false));
    reflexivity.
Qed.

Lemma get_tty_handled (env : os_env) :
  tty_outcome_handled env = true -> exists tty, get_tty env = (Ok tty, []).
Proof.
  unfold tty_outcome_handled, get_tty.
  destruct (stdin_ttyname env) as [name | e]; cbn.
  - eexists. reflexivity.
  - intros ->. eexists. reflexivity.
Qed.

Lemma count_effect_app p (l1 l2 : list effect) :
  count_effect p (l1 ++ l2) = (count_effect p l1 + count_effect p l2)%nat.
Proof. unfold count_effect. now rewrite filter_app, length_app. Qed.

Lemma send_to_app_counts (env : os_env) (state : dict) :
  let log := snd (send_to_app env state) in
  (count_effect is_spawn log = 0 /\ count_effect is_create log = 1
   /\ count_effect is_connect log <= 1 /\ count_effect is_send log <= 1
   /\ count_effect is_close log <= 1)%nat.
Proof.
  cbv zeta. rewrite send_to_app_cases.
  destruct (socket_socket env), (socket_connect env), (socket_sendall env),
    (socket_close env); cbn; lia.
Qed.

(** X10. With an object on standard input, a process query that completed
    or timed out, and a terminal lookup that returned or failed with
    OSError, the run exits with status 0 whatever the payload holds,
    whatever [ps] printed and whatever the socket answers: it spawns [ps],
    then makes one delivery attempt with the record built from the
    payload. *)
Theorem main_exits_zero_when_os_answers (env : os_env) (d : dict) :
  stdin_json env = Ok (VDict d) ->
  ps_outcome_handled env = true ->
  tty_outcome_handled env = true ->
  exists identity tty,
    get_terminal_pid env = (Ok identity, [Spawn (ps_argv env)])
    /\ get_tty env = (Ok tty, [])
    /\ run env
       = (0, Spawn (ps_argv env)
             :: snd (send_to_app env
                       (build_state (fields_of d) identity tty
                                    (times_elapsed_ms env))))
    /\ count_effect is_create (snd (run env)) = 1%nat.
Proof.
  intros Hin Hps Htty.
  destruct (get_tty_handled env Htty) as [tty Hget].
  assert (Hid : exists identity,
             get_terminal_pid env = (Ok identity, [Spawn (ps_argv env)])).
  { pose proof (get_terminal_pid_log env) as Hlog.
    unfold ps_outcome_handled in Hps.
    destruct (ps_run env) as [cp | e] eqn:Hrun.
    - destruct (get_terminal_pid_completed env cp Hrun) as (p & t & H & _).
      rewrite H. eauto.
    - rewrite (get_terminal_pid_caught env e Hrun Hps). eauto. }
  destruct Hid as [identity Hid]. exists identity, tty.
  assert (Hrun : run env
                 = (0, Spawn (ps_argv env)
                       :: snd (send_to_app env
                                 (build_state (fields_of d) identity tty
                                              (times_elapsed_ms env))))).
  { unfold run. rewrite main_cases, Hin, extract_fields_dict, Hid, Hget.
    reflexivity. }
  repeat split; try assumption.
  rewrite Hrun. cbn [snd].
  change (Spawn (ps_argv env) :: ?l) with ([Spawn (ps_argv env)] ++ l)%list.
  rewrite count_effect_app.
  now destruct (send_to_app_counts env
                  (build_state (fields_of d) identity tty (times_elapsed_ms env)))
    as (_ & -> & _).
Qed.

Lemma main_exits_zero_when_os_answers_witness :
  let env := with_sockets (sample_env (Ok (VDict stop_payload)))
                          Done (Failed ConnectionRefusedError) SentAll Done in
  exists identity tty,
    get_terminal_pid env = (Ok identity, [Spawn (ps_argv env)])
    /\ get_tty env = (Ok tty, [])
    /\ run env
       = (0, Spawn (ps_argv env)
             :: snd (send_to_app env
                       (build_state (fields_of stop_payload) identity tty
                                    (times_elapsed_ms env))))
    /\ count_effect is_create (snd (run env)) = 1%nat.
Proof.
  intros env. apply (main_exits_zero_when_os_answers env stop_payload).
  - reflexivity.
  - reflexivity.
  - reflexivity.
Defined.

(** X11. One run costs at most one process and one connection: [main]
    spawns at most one [ps], creates at most one socket and on it connects,
    sends and closes at most once each; a socket is only created after
    [ps] was spawned; and [main] never returns normally, it ends by
    SystemExit or by an exception nothing caught. *)
Theorem main_resource_bounds (env : os_env) :
  let log := snd (main env) in
  (count_effect is_spawn log <= 1 /\ count_effect is_create log <= 1
   /\ count_effect is_connect log <= 1 /\ count_effect is_send log <= 1
   /\ count_effect is_close log <= 1
   /\ count_effect is_create log <= count_effect is_spawn log)%nat
  /\ (log = [] \/ hd_error log = Some (Spawn (ps_argv env)))
  /\ exists e, fst (main env) = Raise e.
Proof.
  cbv zeta. rewrite main_cases.
  destruct (stdin_json env) as [data | e].
  2: { destruct (isinstance e C_JSONDecodeError); cbn;
         (split; [lia | split; [now left | eauto]]). }
  destruct (extract_fields data) as [f | e];
    [ | cbn; split; [lia | split; [now left | eauto]]].
  pose proof (get_terminal_pid_log env) as Hlog1.
  destruct (get_terminal_pid env) as [[identity | e] log1]; cbn in Hlog1;
    subst log1; [ | cbn; split; [lia | split; [now right | eauto]]].
  pose proof (get_tty_log env) as Hlog2.
  destruct (get_tty env) as [[tty | e] log2]; cbn in Hlog2; subst log2;
    [ | cbn; split; [lia | split; [now right | eauto]]].
  cbn [fst snd app].
  change (Spawn (ps_argv env) :: ?l) with ([Spawn (ps_argv env)] ++ l)%list.
  rewrite !count_effect_app.
  destruct (send_to_app_counts env
              (build_state f identity tty (times_elapsed_ms env)))
    as (H0 & H1 & H2 & H3 & H4).
  rewrite H0, H1. cbn. split; [lia | split; [now right | eauto]].
Qed.

(** X12. The record is a JSON object with distinct keys, all from the
    schema and in its order: the eight fields every record has, then tool
    or user_input when the event calls for one. No other key of the
    payload reaches the record. *)
Theorem record_keys_follow_schema (f : fields) (ti : dict) (tty : value) (ts : Z) :
  let keys := dict_keys (build_state f ti tty ts) in
  NoDup keys
  /\ firstn 8 keys = firstn 8 schema_keys
  /\ (forall k, In k keys -> In k schema_keys)
  /\ (8 <= List.length keys <= 9)%nat.
Proof.
  cbv zeta. rewrite build_state_table.
  destruct (kind_of (event f)); cbn;
    (split; [ repeat constructor; cbn; intuition discriminate
            | split; [reflexivity | split; [tauto | lia]]]).
Qed.

Lemma scan_app (b : bool) (a c : string) :
  scan b (a ++ c) = match scan b a with
                    | Some b' => scan b' c
                    | None => None
                    end.
Proof.
  revert b. induction a as [ | x a IHa]; intros b; cbn [append scan];
    [reflexivity | ].
  destruct b; [apply IHa | ].
  destruct (Ascii.eqb x "\"); [apply IHa | ].
  destruct (Ascii.eqb x quote); [reflexivity | apply IHa].
Qed.

Lemma scan_escape_char (c : ascii) : scan false (escape_char c) = Some false.
Proof. destruct c as [[] [] [] [] [] [] [] []]; reflexivity. Qed.

Lemma escape_code_point_latin1 (c : ascii) :
  escape_code_point (code c) = escape_char c.
Proof. destruct c as [[] [] [] [] [] [] [] []]; reflexivity. Qed.

Lemma escape_points_latin1 (s : string) :
  escape_points (code_points s) = escape s.
Proof.
  induction s as [ | c s IHs]; [reflexivity | ].
  cbn [code_points escape_points escape].
  now rewrite escape_code_point_latin1, IHs.
Qed.

(** A hexadecimal digit is a plain character of a literal. *)
Lemma hex_digit_plain (k : N) :
  (k < 16)%N ->
  Ascii.eqb (hex_digit k) "\" = false
  /\ Ascii.eqb (hex_digit k) quote = false
  /\ printable (hex_digit k) = true.
Proof.
  intros Hk. rewrite <- (N2Nat.id k).
  assert (Hm : (N.to_nat k < 16)%nat) by lia.
  revert Hm. generalize (N.to_nat k). intros m.
  do 16 (destruct m as [ | m]; [intros _; repeat split | ]).
  lia.
Qed.

Lemma scan_hex4 (n : N) (b : bool) (rest : string) :
  scan b (hex4 n ++ rest) = scan false rest
  /\ all_chars printable (hex4 n) = true.
Proof.
  assert (H16 : (16 <> 0)%N) by lia.
  destruct (hex_digit_plain _ (N.mod_lt (n / 4096) 16 H16)) as (A1 & A2 & A3).
  destruct (hex_digit_plain _ (N.mod_lt (n / 256) 16 H16)) as (B1 & B2 & B3).
  destruct (hex_digit_plain _ (N.mod_lt (n / 16) 16 H16)) as (C1 & C2 & C3).
  destruct (hex_digit_plain _ (N.mod_lt n 16 H16)) as (D1 & D2 & D3).
  unfold hex4. cbn [append scan all_chars].
  rewrite A1, A2, A3, B1, B2, B3, C1, C2, C3, D1, D2, D3.
  split; [now destruct b | reflexivity].
Qed.

Lemma scan_u_escape (x : N) (rest : string) :
  scan false ("\u" ++ hex4 x ++ rest) = scan false rest
  /\ all_chars printable ("\u" ++ hex4 x) = true.
Proof.
  destruct (scan_hex4 x false rest) as [Hscan Hprint].
  cbn -[hex4]. now rewrite Hscan, Hprint.
Qed.

Lemma scan_escape_code_point (n : N) (rest : string) :
  scan false (escape_code_point n ++ rest) = scan false rest
  /\ all_chars printable (escape_code_point n) = true.
Proof.
  unfold escape_code_point.
  destruct (N.eqb_spec n 34); [split; reflexivity | ].
  destruct (N.eqb_spec n 92); [split; reflexivity | ].
  destruct (n =? 8)%N; [split; reflexivity | ].
  destruct (n =? 12)%N; [split; reflexivity | ].
  destruct (n =? 10)%N; [split; reflexivity | ].
  destruct (n =? 13)%N; [split; reflexivity | ].
  destruct (n =? 9)%N; [split; reflexivity | ].
  destruct ((32 <=? n) && (n <=? 126))%N eqn:Hrange.
  - apply andb_true_iff in Hrange as [Hlo Hhi].
    apply N.leb_le in Hlo, Hhi.
    assert (Hcode : code (ascii_of_N n) = n)
      by (apply N_ascii_embedding; lia).
    assert (Hb : Ascii.eqb (ascii_of_N n) "\" = false).
    { apply Ascii.eqb_neq. intros E. rewrite E in Hcode. vm_compute in Hcode.
      congruence. }
    assert (Hq : Ascii.eqb (ascii_of_N n) quote = false).
    { apply Ascii.eqb_neq. intros E. rewrite E in Hcode. vm_compute in Hcode.
      congruence. }
    cbn [append scan all_chars]. rewrite Hb, Hq. split; [reflexivity | ].
    unfold printable. rewrite Hcode.
    apply N.leb_le in Hlo, Hhi. now rewrite Hlo, Hhi.
  - destruct (n <? 65536)%N; [apply scan_u_escape | ].
    cbv zeta.
    set (hi := N.lor 55296 (N.land (N.shiftr (n - 65536) 10) 1023)).
    set (lo := N.lor 56320 (N.land (n - 65536) 1023)).
    replace (("\u" ++ hex4 hi ++ "\u" ++ hex4 lo) ++ rest)
      with ("\u" ++ hex4 hi ++ ("\u" ++ hex4 lo ++ rest))
      by (now rewrite !PyStrFacts.append_assoc).
    replace ("\u" ++ hex4 hi ++ "\u" ++ hex4 lo)
      with (("\u" ++ hex4 hi) ++ ("\u" ++ hex4 lo))
      by (now rewrite !PyStrFacts.append_assoc).
    destruct (scan_u_escape hi ("\u" ++ hex4 lo ++ rest)) as [-> Phi].
    destruct (scan_u_escape lo rest) as [-> Plo].
    now rewrite all_chars_app, Phi, Plo.
Qed.

(** X13. No text can end the JSON string literal it is printed in, whatever
    code points it holds (quotes, backslashes, control characters,
    characters beyond U+FFFF): the printed literal is made of characters of
    [' '..'~'], and a reader of it meets the first closing quote at the very
    end. On the strings of a record this replacement is the one [dumps]
    makes, so a session id, a directory or a tool name cannot pass for
    further fields of the record. *)
Theorem string_literal_closes_at_its_end (text : list N) :
  scan false (escape_points text) = Some false
  /\ scan false (escape_points text ++ String quote EmptyString) = None
  /\ all_chars printable (escape_points text) = true
  /\ (forall s : string,
         escape_points (code_points s) = escape s
         /\ encode_basestring_ascii s
            = String quote (escape_points (code_points s)
                            ++ String quote EmptyString)).
Proof.
  assert (H : forall rest,
             scan false (escape_points text ++ rest) = scan false rest).
  { induction text as [ | n text IH]; intros rest; [reflexivity | ].
    cbn [escape_points]. rewrite PyStrFacts.append_assoc.
    destruct (scan_escape_code_point n (escape_points text ++ rest)) as [-> _].
    apply IH. }
  split; [ | split; [ | split]].
  - specialize (H EmptyString). now rewrite PyStrFacts.append_nil_r in H.
  - rewrite H. reflexivity.
  - induction text as [ | n text IH]; [reflexivity | ].
    cbn [escape_points]. rewrite all_chars_app.
    destruct (scan_escape_code_point n EmptyString) as [_ ->].
    apply IH. intros rest. specialize (H rest). cbn [escape_points] in H.
    rewrite PyStrFacts.append_assoc in H.
    destruct (scan_escape_code_point n (escape_points text ++ rest)) as [E _].
    now rewrite E in H.
  - intros s. rewrite escape_points_latin1. split; reflexivity.
Qed.

End RunFacts.
